(** * The virtio crypto device manager (virtio_crypto_mgr.c)

    A shallow embedding of the device table, the reference-count protocol
    and the device selection of the virtio crypto driver, with the
    properties its specification states about them.

    The embedding is sequential: [mutex_lock]/[mutex_unlock] on
    [table_lock] and the atomicity of the [atomic_t] operations have no
    counterpart, and [pr_info]/[pr_err] are left out.  A device is named by
    the address of its [struct virtio_crypto]; the table holds addresses,
    so that a change made through one alias is seen through every other. *)

From stdpp Require Import base tactics numbers list functions.

Local Open Scope Z_scope.

(** ** Machine integers *)

(** [uint32_t] arithmetic: results are reduced modulo [2^32]. *)
Definition wrap_u32 (x : Z) : Z := x mod 2 ^ 32.

(** [int] arithmetic as the kernel's [atomic_t] defines it: two's
    complement, wrapping at [2^31]. *)
Definition wrap_int (x : Z) : Z := (x + 2 ^ 31) mod 2 ^ 32 - 2 ^ 31.

Definition int_range (x : Z) : Prop := - 2 ^ 31 <= x < 2 ^ 31.

Definition EFAULT : Z := 14.
Definition EEXIST : Z := 17.

Definition VIRTIO_CRYPTO_MAX_DEVICES : Z := 32.

(** ** Data *)

(** [struct virtio_crypto *] and [struct module *]. *)
Definition ptr : Type := positive.
Definition module_ptr : Type := positive.

(** The fields of [struct virtio_crypto] the manager reads or writes.
    [numa_node] stands for [dev_to_node(&vdev->dev)].  The struct is
    declared in virtio_crypto_common.h; [dev_id] only ever receives a
    value of [num_devices] taken below the capacity check, and is kept as
    that value. *)
Record virtio_crypto : Type := VirtioCrypto {
  numa_node : Z;
  status : Z;
  ref_count : Z;
  owner : module_ptr;
  dev_id : Z
}.

Definition set_status (v : Z) (d : virtio_crypto) : virtio_crypto :=
  VirtioCrypto (numa_node d) v (ref_count d) (owner d) (dev_id d).
Definition set_ref_count (v : Z) (d : virtio_crypto) : virtio_crypto :=
  VirtioCrypto (numa_node d) (status d) v (owner d) (dev_id d).
Definition set_dev_id (v : Z) (d : virtio_crypto) : virtio_crypto :=
  VirtioCrypto (numa_node d) (status d) (ref_count d) (owner d) v.

(** Calls that leave the manager: the module reference of the owner and
    the registration of the crypto algorithms.  What such a call answers
    is an input of the operation that makes it. *)
Inductive event : Type :=
  | try_module_get_ev (m : module_ptr) (ok : bool)
  | module_put_ev (m : module_ptr)
  | algs_register_ev (ret : Z)
  | algs_unregister_ev.

(** The file's globals [virtio_crypto_table] and [num_devices], the
    device structs by address, and the external calls made so far (most
    recent first). *)
Record state : Type := State {
  mem : ptr -> virtio_crypto;
  virtio_crypto_table : list ptr;
  num_devices : Z;
  calls : list event
}.

Definition with_mem (f : (ptr -> virtio_crypto) -> ptr -> virtio_crypto)
    (st : state) : state :=
  State (f (mem st)) (virtio_crypto_table st) (num_devices st) (calls st).
Definition with_table (f : list ptr -> list ptr) (st : state) : state :=
  State (mem st) (f (virtio_crypto_table st)) (num_devices st) (calls st).
Definition with_num_devices (v : Z) (st : state) : state :=
  State (mem st) (virtio_crypto_table st) v (calls st).
Definition log (e : event) (st : state) : state :=
  State (mem st) (virtio_crypto_table st) (num_devices st) (e :: calls st).

(** ** The device table *)

(** The [list_for_each] loop of [virtcrypto_devmgr_add_dev]: does some
    entry have the address [vcrypto_dev]? *)
Fixpoint table_has (vcrypto_dev : ptr) (itr : list ptr) : bool :=
  match itr with
  | [] => false
  | p :: itr' => if decide (p = vcrypto_dev) then true
                 else table_has vcrypto_dev itr'
  end.

Definition list_add_tail (p : ptr) (l : list ptr) : list ptr := l ++ [p].

(** [list_del] unlinks the one node of the device. *)
Fixpoint list_del (p : ptr) (l : list ptr) : list ptr :=
  match l with
  | [] => []
  | q :: l' => if decide (q = p) then l' else q :: list_del p l'
  end.

(** [atomic_set] on the [ref_count] of the device at [p]. *)
Definition atomic_set (p : ptr) (v : Z) (st : state) : state :=
  with_mem (alter (set_ref_count v) p) st.

Definition virtcrypto_devmgr_add_dev (vcrypto_dev : ptr) (st : state)
    : Z * state :=
  if decide (num_devices st = VIRTIO_CRYPTO_MAX_DEVICES) then (- EFAULT, st)
  else if table_has vcrypto_dev (virtio_crypto_table st) then (- EEXIST, st)
  else
    let st1 := atomic_set vcrypto_dev 0 st in
    let st2 := with_table (list_add_tail vcrypto_dev) st1 in
    let st3 := with_mem (alter (set_dev_id (num_devices st2)) vcrypto_dev) st2 in
    (0, with_num_devices (wrap_u32 (num_devices st3 + 1)) st3).

Definition virtcrypto_devmgr_get_head (st : state) : list ptr :=
  virtio_crypto_table st.

Definition virtcrypto_devmgr_rm_dev (vcrypto_dev : ptr) (st : state) : state :=
  let st1 := with_table (list_del vcrypto_dev) st in
  with_num_devices (wrap_u32 (num_devices st1 - 1)) st1.


(** ** Reference counts *)

Definition atomic_read (p : ptr) (st : state) : Z := ref_count (mem st p).

Definition atomic_add_return (i : Z) (p : ptr) (st : state) : Z * state :=
  let v := wrap_int (ref_count (mem st p) + i) in
  (v, with_mem (alter (set_ref_count v) p) st).

Definition atomic_sub_return (i : Z) (p : ptr) (st : state) : Z * state :=
  let v := wrap_int (ref_count (mem st p) - i) in
  (v, with_mem (alter (set_ref_count v) p) st).

Definition virtcrypto_dev_in_use (p : ptr) (st : state) : Z :=
  if decide (atomic_read p st ≠ 0) then 1 else 0.

(** [pin_ok] is the answer of [try_module_get], asked only when the count
    has become 1. *)
Definition virtcrypto_dev_get (pin_ok : bool) (vcrypto_dev : ptr) (st : state)
    : Z * state :=
  let '(v, st1) := atomic_add_return 1 vcrypto_dev st in
  if decide (v = 1) then
    let st2 := log (try_module_get_ev (owner (mem st1 vcrypto_dev)) pin_ok) st1 in
    if pin_ok then (0, st2) else (- EFAULT, st2)
  else (0, st1).

Definition virtcrypto_dev_put (vcrypto_dev : ptr) (st : state) : state :=
  let '(v, st1) := atomic_sub_return 1 vcrypto_dev st in
  if decide (v = 0) then log (module_put_ev (owner (mem st1 vcrypto_dev))) st1
  else st1.

Section Manager.

(** The started flag of [status] comes from virtio_crypto_common.h and
    the width of [unsigned long] from the architecture; both are left
    open. *)
Variable VIRTIO_CRYPTO_S_STARTED : Z.
Variable BITS_PER_LONG : Z.

(** The started flag is a non-zero mask within 32 bits, and
    [unsigned long] has at least 32 bits. *)
Hypothesis S_STARTED_mask : 0 < VIRTIO_CRYPTO_S_STARTED < 2 ^ 32.
Hypothesis BITS_PER_LONG_min : 32 <= BITS_PER_LONG.

(** Conversion to [unsigned long]. *)
Definition ulong (x : Z) : Z := x mod 2 ^ BITS_PER_LONG.

(** ** Status *)

(** The function returns [int]: the masked status is converted. *)
Definition virtcrypto_dev_started (p : ptr) (st : state) : Z :=
  wrap_int (Z.land (status (mem st p)) VIRTIO_CRYPTO_S_STARTED).

(** [algs_ret] is what [virtio_crypto_algs_register] returns. *)
Definition virtcrypto_dev_start (algs_ret : Z) (vcrypto : ptr) (st : state)
    : Z * state :=
  let st1 := log (algs_register_ev algs_ret) st in
  if decide (algs_ret ≠ 0) then (- EFAULT, st1)
  else
    (0, with_mem (alter (λ d, set_status
                     (Z.lor (status d) VIRTIO_CRYPTO_S_STARTED) d) vcrypto) st1).

Definition virtcrypto_dev_stop (vcrypto : ptr) (st : state) : Z * state :=
  let st1 := log algs_unregister_ev st in
  (0, with_mem (alter (λ d, set_status
                   (Z.land (status d) (Z.lnot VIRTIO_CRYPTO_S_STARTED)) d)
                 vcrypto) st1).

(** ** Selection *)

(** The first loop of [virtcrypto_get_dev_node], from the entry [itr] on,
    with the current values of the locals [vcrypto_dev] and [best]. *)
Fixpoint get_dev_node_scan (node : Z) (st : state) (itr : list ptr)
    (vcrypto_dev : option ptr) (best : Z) : option ptr :=
  match itr with
  | [] => vcrypto_dev
  | tmp_dev :: itr' =>
      if decide ((node = numa_node (mem st tmp_dev)
                  ∨ numa_node (mem st tmp_dev) < 0)
                 ∧ virtcrypto_dev_started tmp_dev st ≠ 0) then
        let ctr := ulong (atomic_read tmp_dev st) in
        if decide (best > ctr) then
          get_dev_node_scan node st itr' (Some tmp_dev) ctr
        else get_dev_node_scan node st itr' vcrypto_dev best
      else get_dev_node_scan node st itr' vcrypto_dev best
  end.

(** The second loop: any started device, leaving at the first. *)
Fixpoint get_dev_node_any (st : state) (itr : list ptr) : option ptr :=
  match itr with
  | [] => None
  | tmp_dev :: itr' =>
      if decide (virtcrypto_dev_started tmp_dev st ≠ 0) then Some tmp_dev
      else get_dev_node_any st itr'
  end.

(** The device the two loops settle on, before the reference is taken. *)
Definition get_dev_node_found (node : Z) (st : state) : option ptr :=
  match get_dev_node_scan node st (virtcrypto_devmgr_get_head st) None
          (ulong (Z.lnot 0)) with
  | Some p => Some p
  | None => get_dev_node_any st (virtcrypto_devmgr_get_head st)
  end.

(** The result of [virtcrypto_dev_get] is dropped. *)
Definition virtcrypto_get_dev_node (pin_ok : bool) (node : Z) (st : state)
    : option ptr * state :=
  match get_dev_node_found node st with
  | None => (None, st)
  | Some vcrypto_dev =>
      (Some vcrypto_dev, (virtcrypto_dev_get pin_ok vcrypto_dev st).2)
  end.

(** ** Notions the properties are stated with *)

(** Started: the status has the started flag. *)
Definition started (st : state) (p : ptr) : Prop :=
  Z.land (status (mem st p)) VIRTIO_CRYPTO_S_STARTED ≠ 0.

(** Affine to [node]: on that node, or on none. *)
Definition affine (node : Z) (st : state) (p : ptr) : Prop :=
  numa_node (mem st p) = node ∨ numa_node (mem st p) < 0.

Definition candidate (node : Z) (st : state) (p : ptr) : Prop :=
  started st p ∧ affine node st p.

(** The registry before anything is registered: the table is empty and
    [num_devices], a static, is 0. *)
Definition empty_registry (st : state) : Prop :=
  virtio_crypto_table st = [] ∧ num_devices st = 0.

(** Registrations one after the other, with the value each returns. *)
Fixpoint add_devs (hs : list ptr) (st : state) : list Z * state :=
  match hs with
  | [] => ([], st)
  | p :: hs' =>
      let '(r, st1) := virtcrypto_devmgr_add_dev p st in
      let '(rs, st2) := add_devs hs' st1 in
      (r :: rs, st2)
  end.

(** Sequences of registrations and removals. *)
Inductive reg_op : Type :=
  | Add (p : ptr)
  | Rm (p : ptr).

Definition reg_step (o : reg_op) (st : state) : state :=
  match o with
  | Add p => (virtcrypto_devmgr_add_dev p st).2
  | Rm p => virtcrypto_devmgr_rm_dev p st
  end.

Definition reg_run (ops : list reg_op) (st : state) : state :=
  foldl (λ s o, reg_step o s) st ops.

(** Every removal in the sequence takes out the last entry of the table
    as it is then. *)
Fixpoint rm_last_only (ops : list reg_op) (st : state) : bool :=
  match ops with
  | [] => true
  | o :: ops' =>
      match o with
      | Add _ => true
      | Rm p => bool_decide (list.last (virtio_crypto_table st) = Some p)
      end && rm_last_only ops' (reg_step o st)
  end.

(** Every removal in the sequence is of a device in the table. *)
Fixpoint rm_present (ops : list reg_op) (st : state) : bool :=
  match ops with
  | [] => true
  | o :: ops' =>
      match o with
      | Add _ => true
      | Rm p => bool_decide (p ∈ virtio_crypto_table st)
      end && rm_present ops' (reg_step o st)
  end.

(** Sequences of [virtcrypto_dev_get] and [virtcrypto_dev_put] on one
    device. *)
Inductive ref_op : Type :=
  | Get (pin_ok : bool)
  | Put.

(** One call; a [Put] returns nothing, noted as 0. *)
Definition ref_step (p : ptr) (o : ref_op) (st : state) : Z * state :=
  match o with
  | Get pin_ok => virtcrypto_dev_get pin_ok p st
  | Put => (0, virtcrypto_dev_put p st)
  end.

Fixpoint ref_run (p : ptr) (ops : list ref_op) (st : state) : list Z * state :=
  match ops with
  | [] => ([], st)
  | o :: ops' =>
      let '(r, st1) := ref_step p o st in
      let '(rs, st2) := ref_run p ops' st1 in
      (r :: rs, st2)
  end.

(** The values [ref_count] goes through, the first being the one before
    the sequence. *)
Fixpoint ref_counts (p : ptr) (ops : list ref_op) (st : state) : list Z :=
  ref_count (mem st p) ::
  match ops with
  | [] => []
  | o :: ops' => ref_counts p ops' (ref_step p o st).2
  end.

(** How often a value [a] is followed by [b]. *)
Fixpoint transitions (a b : Z) (vs : list Z) : nat :=
  match vs with
  | [] => 0
  | x :: vs' =>
      match vs' with
      | [] => 0
      | y :: _ =>
          (if decide (x = a ∧ y = b) then 1 else 0) + transitions a b vs'
      end
  end%nat.

Definition is_get (o : ref_op) : bool :=
  match o with Get _ => true | Put => false end.
Definition is_put (o : ref_op) : bool :=
  match o with Get _ => false | Put => true end.

Definition gets (ops : list ref_op) : nat := length (List.filter is_get ops).
Definition puts (ops : list ref_op) : nat := length (List.filter is_put ops).

Definition is_try_get (m : module_ptr) (e : event) : bool :=
  match e with
  | try_module_get_ev m' _ => bool_decide (m' = m)
  | _ => false
  end.
Definition is_pinned (m : module_ptr) (e : event) : bool :=
  match e with
  | try_module_get_ev m' ok => bool_decide (m' = m) && ok
  | _ => false
  end.
Definition is_module_put (m : module_ptr) (e : event) : bool :=
  match e with
  | module_put_ev m' => bool_decide (m' = m)
  | _ => false
  end.

(** Calls of a kind among the external calls made so far. *)
Definition count_calls (f : event → bool) (st : state) : nat :=
  length (List.filter f (calls st)).



(** The invariant of a table built by registrations alone, or with
    removals of the last entry only: the entries are distinct,
    [num_devices] counts them, there are at most
    [VIRTIO_CRYPTO_MAX_DEVICES], and the entry at position [i] has id
    [i]. *)
Definition ids_in_order (st : state) : Prop :=
  NoDup (virtio_crypto_table st)
  ∧ num_devices st = Z.of_nat (length (virtio_crypto_table st))
  ∧ num_devices st <= VIRTIO_CRYPTO_MAX_DEVICES
  ∧ ∀ (i : nat) (p : ptr),
      virtio_crypto_table st !! i = Some p → dev_id (mem st p) = Z.of_nat i.


(** [p] is the least loaded candidate of [l], the first of them in the
    order of [l]: the candidates before it hold more references, those
    after it at least as many. *)
Definition least_loaded_first (node : Z) (st : state)
    (l : list ptr) (p : ptr) : Prop :=
  ∃ l1 l2 : list ptr,
    l = l1 ++ p :: l2
    ∧ candidate node st p
    ∧ (∀ q, q ∈ l1 → candidate node st q →
         ref_count (mem st p) < ref_count (mem st q))
    ∧ (∀ q, q ∈ l2 → candidate node st q →
         ref_count (mem st p) <= ref_count (mem st q)).

(** [p] is the first started device of [l]. *)
Definition first_started (st : state) (l : list ptr) (p : ptr) : Prop :=
  ∃ l1 l2 : list ptr,
    l = l1 ++ p :: l2
    ∧ started st p
    ∧ ∀ q, q ∈ l1 → ¬ started st q.

(** The reference counts of the devices of [l] are counts: not
    negative, and within [int]. *)
Definition counts_in_range (st : state) (l : list ptr) : Prop :=
  ∀ q, q ∈ l → 0 <= ref_count (mem st q) < 2 ^ 31.

(** The first loop, after the entries [pre]: with no device yet, [best]
    is still [~0] and [pre] has no candidate; with a device, [best] is
    its count and it is the least loaded candidate of [pre], the first
    of them. *)
Definition scan_inv (node : Z) (st : state) (pre : list ptr)
    (vcrypto_dev : option ptr) (best : Z) : Prop :=
  match vcrypto_dev with
  | None => best = ulong (Z.lnot 0) ∧ ∀ q, q ∈ pre → ¬ candidate node st q
  | Some p => best = ref_count (mem st p) ∧ least_loaded_first node st pre p
  end.

Definition scan_post (node : Z) (st : state) (l : list ptr)
    (vcrypto_dev : option ptr) : Prop :=
  match vcrypto_dev with
  | None => ∀ q, q ∈ l → ¬ candidate node st q
  | Some p => least_loaded_first node st l p
  end.

(** ** A small configuration to run the operations on *)

Definition dev0 (node : Z) : virtio_crypto := VirtioCrypto node 0 0 1%positive 0.

Definition st0 : state := State (λ _, dev0 (-1)) [] 0 [].

(** Devices 1, 2, 3 on nodes 0, 1 and none. *)
Definition st_nodes : state :=
  State (λ p, if decide (p = 1%positive) then dev0 0
              else if decide (p = 2%positive) then dev0 1 else dev0 (-1))
        [] 0 [].

(** Thirty-two handles, 1 to 32. *)
Definition handles32 : list ptr := map Pos.of_nat (seq 1 32).

(** Three started devices, the flag being 2: device 1 on node 0 with one
    reference, device 2 on node 1 and device 3 on no node, both idle. *)
Definition st_started : state :=
  State (λ p, if decide (p = 1%positive) then VirtioCrypto 0 2 1 1%positive 0
              else if decide (p = 2%positive) then VirtioCrypto 1 2 0 1%positive 1
              else VirtioCrypto (-1) 2 0 1%positive 2)
        [1; 2; 3]%positive 3 [].

(** The table as registrations and removals of present devices keep it:
    the entries are distinct, [num_devices] counts them, and there are
    at most [VIRTIO_CRYPTO_MAX_DEVICES]. *)
Definition table_counted (st : state) : Prop :=
  NoDup (virtio_crypto_table st)
  ∧ num_devices st = Z.of_nat (length (virtio_crypto_table st))
  ∧ num_devices st <= VIRTIO_CRYPTO_MAX_DEVICES.

(** Every [Put] of the sequence answers a [Get] before it: with [d]
    references held at the start, the references held never go below
    none. *)
Fixpoint never_below (d : nat) (ops : list ref_op) : bool :=
  match ops with
  | [] => true
  | Get _ :: ops' => never_below (S d) ops'
  | Put :: ops' =>
      match d with
      | O => false
      | S d' => never_below d' ops'
      end
  end.

(** 1 when the count says the device is held, 0 when not. *)
Definition held (v : Z) : nat := if decide (0 < v) then 1%nat else 0%nat.

(** Two started devices, the flag being 2: device 2 on node 1, idle, and
    device 1 on node 0 with count -1. *)
Definition st_minus : state :=
  State (λ p, if decide (p = 1%positive) then VirtioCrypto 0 2 (-1) 1%positive 1
              else VirtioCrypto 1 2 0 1%positive 0)
        [2; 1]%positive 2 [].
(** * Properties *)

(** ** Registration *)

Lemma wrap_u32_small (x : Z) : 0 <= x < 2 ^ 32 → wrap_u32 x = x.
Proof. intros. unfold wrap_u32. by apply Z.mod_small. Qed.

Lemma wrap_int_small (x : Z) : int_range x → wrap_int x = x.
Proof.
  unfold int_range, wrap_int. intros.
  rewrite Z.mod_small; lia.
Qed.

Lemma wrap_int_range (x : Z) : int_range (wrap_int x).
Proof.
  unfold int_range, wrap_int.
  pose proof (Z.mod_pos_bound (x + 2 ^ 31) (2 ^ 32)). lia.
Qed.

Lemma table_has_elem_of (p : ptr) (l : list ptr) :
  table_has p l = true ↔ p ∈ l.
Proof.
  induction l as [|q l IH]; simpl.
  - split; [done | by intros ?%elem_of_nil].
  - case_decide as Hq; subst.
    + split; [intros _; apply list_elem_of_here | done].
    + rewrite IH, elem_of_cons. split; [auto | intros [?|?]; congruence].
Qed.

Lemma add_dev_full (p : ptr) (st : state) :
  num_devices st = VIRTIO_CRYPTO_MAX_DEVICES →
  virtcrypto_devmgr_add_dev p st = (- EFAULT, st).
Proof. intros H. unfold virtcrypto_devmgr_add_dev. by rewrite decide_True. Qed.

Lemma add_dev_present (p : ptr) (st : state) :
  num_devices st ≠ VIRTIO_CRYPTO_MAX_DEVICES →
  p ∈ virtio_crypto_table st →
  virtcrypto_devmgr_add_dev p st = (- EEXIST, st).
Proof.
  intros Hn Hp. unfold virtcrypto_devmgr_add_dev.
  rewrite decide_False by done.
  apply table_has_elem_of in Hp. by rewrite Hp.
Qed.

Lemma add_dev_fresh (p : ptr) (st : state) :
  num_devices st ≠ VIRTIO_CRYPTO_MAX_DEVICES →
  p ∉ virtio_crypto_table st →
  virtcrypto_devmgr_add_dev p st =
    (0, State (alter (set_dev_id (num_devices st)) p
                 (alter (set_ref_count 0) p (mem st)))
              (virtio_crypto_table st ++ [p])
              (wrap_u32 (num_devices st + 1))
              (calls st)).
Proof.
  intros Hn Hp. unfold virtcrypto_devmgr_add_dev.
  rewrite decide_False by done.
  destruct (table_has p (virtio_crypto_table st)) eqn:E; [|done].
  by apply table_has_elem_of in E.
Qed.

(** The three ways [virtcrypto_devmgr_add_dev] ends. *)
Lemma add_dev_cases (p : ptr) (st : state) :
  (virtcrypto_devmgr_add_dev p st = (- EFAULT, st)
   ∧ num_devices st = VIRTIO_CRYPTO_MAX_DEVICES)
  ∨ (virtcrypto_devmgr_add_dev p st = (- EEXIST, st)
     ∧ num_devices st ≠ VIRTIO_CRYPTO_MAX_DEVICES
     ∧ p ∈ virtio_crypto_table st)
  ∨ ((virtcrypto_devmgr_add_dev p st).1 = 0
     ∧ num_devices st ≠ VIRTIO_CRYPTO_MAX_DEVICES
     ∧ p ∉ virtio_crypto_table st).
Proof.
  destruct (decide (num_devices st = VIRTIO_CRYPTO_MAX_DEVICES)) as [Hn|Hn].
  { left. by rewrite add_dev_full. }
  destruct (decide (p ∈ virtio_crypto_table st)) as [Hp|Hp].
  { right; left. by rewrite add_dev_present. }
  right; right. by rewrite add_dev_fresh.
Qed.

(** C10: when [virtcrypto_devmgr_add_dev] returns an error, the state it
    leaves is the state it was called in: the table, [num_devices] and
    every field of every device, [ref_count] and [dev_id] of the handle
    among them, are as before. *)
Theorem add_dev_error_leaves_state (p : ptr) (st : state) :
  (virtcrypto_devmgr_add_dev p st).1 ≠ 0 →
  (virtcrypto_devmgr_add_dev p st).2 = st
  ∧ ((virtcrypto_devmgr_add_dev p st).1 = - EFAULT
     ∨ (virtcrypto_devmgr_add_dev p st).1 = - EEXIST).
Proof.
  intros Herr.
  destruct (add_dev_cases p st) as [[-> _]|[[-> _]|[H0 _]]]; simpl; auto.
  contradiction.
Qed.

Lemma filter_eq_absent (p : ptr) (l : list ptr) :
  p ∉ l → filter (λ q, q = p) l = [].
Proof.
  induction l as [|q l IH]; [done|].
  intros [Hne Hp]%not_elem_of_cons.
  rewrite filter_cons_False by congruence. by apply IH.
Qed.

(** C7, as the code has it: the capacity test comes first.  For a handle
    already in the table, [virtcrypto_devmgr_add_dev] returns [-EEXIST]
    when [num_devices] is not [VIRTIO_CRYPTO_MAX_DEVICES] and [-EFAULT]
    when it is; either way the state is left as it was, and the table
    still has exactly one entry for the handle. *)
Theorem add_dev_present_rejected (p : ptr) (st : state) :
  NoDup (virtio_crypto_table st) →
  p ∈ virtio_crypto_table st →
  (num_devices st ≠ VIRTIO_CRYPTO_MAX_DEVICES →
     virtcrypto_devmgr_add_dev p st = (- EEXIST, st))
  ∧ (num_devices st = VIRTIO_CRYPTO_MAX_DEVICES →
     virtcrypto_devmgr_add_dev p st = (- EFAULT, st))
  ∧ (virtcrypto_devmgr_add_dev p st).2 = st
  ∧ length (filter (λ q, q = p)
              (virtio_crypto_table (virtcrypto_devmgr_add_dev p st).2)) = 1%nat.
Proof.
  intros Hnd Hp.
  assert (Hst : (virtcrypto_devmgr_add_dev p st).2 = st).
  { destruct (add_dev_cases p st) as [[-> _]|[[-> _]|(_ & _ & ?)]]; done. }
  repeat split.
  - intros. by apply add_dev_present.
  - apply add_dev_full.
  - done.
  - rewrite Hst. clear Hst.
    induction Hnd as [|q l Hq Hnd IH]; [by apply elem_of_nil in Hp|].
    apply elem_of_cons in Hp as [->|Hp].
    + rewrite filter_cons_True by done. simpl. f_equal.
      by rewrite filter_eq_absent.
    + rewrite filter_cons_False; [by apply IH|].
      intros ->. done.
Qed.

Lemma empty_registry_ids_in_order (st : state) :
  empty_registry st → ids_in_order st.
Proof.
  intros [Ht Hn]. unfold ids_in_order. rewrite Ht, Hn.
  repeat split; [constructor | done | done].
Qed.

Lemma add_dev_ids_in_order (p : ptr) (st : state) :
  ids_in_order st → ids_in_order (virtcrypto_devmgr_add_dev p st).2.
Proof.
  intros Hinv.
  destruct (add_dev_cases p st) as [[-> _]|[[-> _]|(_ & Hn & Hp)]]; [done..|].
  rewrite add_dev_fresh by done.
  destruct Hinv as (Hnd & Hlen & Hcap & Hid).
  unfold VIRTIO_CRYPTO_MAX_DEVICES in *.
  unfold ids_in_order; simpl.
  rewrite wrap_u32_small by lia.
  repeat split.
  - apply list.NoDup_app. repeat split; [done | | apply NoDup_singleton].
    intros x Hx ->%list_elem_of_singleton. done.
  - rewrite length_app. simpl. lia.
  - unfold VIRTIO_CRYPTO_MAX_DEVICES. lia.
  - intros i q Hq.
    destruct (decide (p = q)) as [<-|Hne].
    + rewrite fn_lookup_alter. simpl.
      destruct (decide (i < length (virtio_crypto_table st))%nat) as [Hi|Hi].
      * rewrite lookup_app_l in Hq by done.
        exfalso. apply Hp. by eapply list_elem_of_lookup_2.
      * apply lookup_lt_Some in Hq. rewrite length_app in Hq. simpl in Hq.
        lia.
    + rewrite !fn_lookup_alter_ne by done.
      apply Hid.
      destruct (decide (i < length (virtio_crypto_table st))%nat) as [Hi|Hi].
      * by rewrite lookup_app_l in Hq.
      * rewrite lookup_app_r in Hq by lia.
        apply list_lookup_singleton_Some in Hq as [_ ?]. done.
Qed.

Lemma list_del_snoc (p : ptr) (l : list ptr) :
  p ∉ l → list_del p (l ++ [p]) = l.
Proof.
  induction l as [|q l IH]; simpl; intros Hp.
  - by rewrite decide_True.
  - apply not_elem_of_cons in Hp as [Hne Hp].
    rewrite decide_False by done. by rewrite IH.
Qed.

Lemma rm_last_ids_in_order (p : ptr) (st : state) :
  ids_in_order st →
  list.last (virtio_crypto_table st) = Some p →
  ids_in_order (virtcrypto_devmgr_rm_dev p st).
Proof.
  intros (Hnd & Hlen & Hcap & Hid) [l Hl]%last_Some.
  unfold ids_in_order, virtcrypto_devmgr_rm_dev; simpl.
  rewrite Hl in *. rewrite length_app in Hlen. simpl in Hlen.
  apply list.NoDup_app in Hnd as (Hnd & Hp & _).
  rewrite list_del_snoc.
  2:{ intros Hin. apply (Hp p Hin). apply list_elem_of_here. }
  unfold VIRTIO_CRYPTO_MAX_DEVICES in *.
  rewrite wrap_u32_small by lia.
  repeat split; [done | lia | lia |].
  intros i q Hq. apply Hid. by apply lookup_app_l_Some.
Qed.

Lemma reg_run_ids_in_order (ops : list reg_op) (st : state) :
  ids_in_order st → rm_last_only ops st = true →
  ids_in_order (reg_run ops st).
Proof.
  revert st. induction ops as [|o ops IH]; intros st Hinv Hops; [done|].
  simpl in Hops. apply andb_prop in Hops as [Ho Hops].
  unfold reg_run. simpl. apply IH; [|done].
  destruct o as [p|p]; simpl.
  - by apply add_dev_ids_in_order.
  - apply rm_last_ids_in_order; [done|]. by apply bool_decide_eq_true in Ho.
Qed.

(** C1, as the code has it: the id given at registration is the number
    of devices in the table at that moment.  From the empty registry,
    through registrations and removals where each removal takes out the
    last entry of the table, the entry at position [i] has id [i], so the
    ids in the table are distinct, and a registration gives the new handle
    an id that no handle in the table has. *)
Theorem add_dev_id_fresh_rm_last (ops : list reg_op) (st : state) :
  empty_registry st →
  rm_last_only ops st = true →
  let st' := reg_run ops st in
  (∀ (i : nat) (q : ptr),
      virtio_crypto_table st' !! i = Some q → dev_id (mem st' q) = Z.of_nat i)
  ∧ ∀ p : ptr,
      (virtcrypto_devmgr_add_dev p st').1 = 0 →
      dev_id (mem (virtcrypto_devmgr_add_dev p st').2 p)
        = Z.of_nat (length (virtio_crypto_table st'))
      ∧ ∀ q : ptr, q ∈ virtio_crypto_table st' →
          dev_id (mem (virtcrypto_devmgr_add_dev p st').2 q)
            ≠ dev_id (mem (virtcrypto_devmgr_add_dev p st').2 p).
Proof.
  intros Hemp Hops st'.
  assert (Hinv : ids_in_order st').
  { apply reg_run_ids_in_order; [|done]. by apply empty_registry_ids_in_order. }
  split; [apply Hinv|].
  intros p Hret.
  pose proof (add_dev_ids_in_order p st' Hinv) as (_ & _ & _ & Hid').
  destruct (add_dev_cases p st') as [[E _]|[[E _]|(_ & Hn & Hp)]];
    [rewrite E in Hret; done..|].
  rewrite add_dev_fresh in * by done. simpl in *.
  assert (Hpid : dev_id (alter (set_dev_id (num_devices st')) p
                           (alter (set_ref_count 0) p (mem st')) p)
                 = Z.of_nat (length (virtio_crypto_table st'))).
  { apply Hid'. rewrite lookup_app_r by lia.
    by rewrite Nat.sub_diag. }
  split; [done|].
  intros q [i Hq]%list_elem_of_lookup_1.
  rewrite Hpid, (Hid' i q).
  - apply lookup_lt_Some in Hq. lia.
  - by apply lookup_app_l_Some.
Qed.

Lemma add_devs_cons (p : ptr) (hs : list ptr) (st : state) :
  add_devs (p :: hs) st =
    ((virtcrypto_devmgr_add_dev p st).1
       :: (add_devs hs (virtcrypto_devmgr_add_dev p st).2).1,
     (add_devs hs (virtcrypto_devmgr_add_dev p st).2).2).
Proof.
  simpl. destruct (virtcrypto_devmgr_add_dev p st) as [r st1]. simpl.
  by destruct (add_devs hs st1).
Qed.

(** Registrations of handles that are new to a table with room for all
    of them. *)
Lemma add_devs_fresh (hs : list ptr) (st : state) :
  ids_in_order st →
  NoDup (virtio_crypto_table st ++ hs) →
  Z.of_nat (length (virtio_crypto_table st) + length hs)
    <= VIRTIO_CRYPTO_MAX_DEVICES →
  (add_devs hs st).1 = replicate (length hs) 0
  ∧ virtio_crypto_table (add_devs hs st).2 = virtio_crypto_table st ++ hs
  ∧ ids_in_order (add_devs hs st).2.
Proof.
  revert st. induction hs as [|p hs IH]; intros st Hinv Hnd Hlen.
  { simpl. by rewrite app_nil_r. }
  rewrite add_devs_cons. simpl fst. simpl snd.
  assert (Hp : p ∉ virtio_crypto_table st).
  { apply list.NoDup_app in Hnd as (_ & Hd & _).
    intros Hin. apply (Hd p Hin). apply list_elem_of_here. }
  assert (Hn : num_devices st ≠ VIRTIO_CRYPTO_MAX_DEVICES).
  { destruct Hinv as (_ & -> & _). simpl in Hlen. lia. }
  pose proof (add_dev_ids_in_order p st Hinv) as Hinv1.
  rewrite add_dev_fresh in * by done.
  cbn [fst snd] in *. simpl in Hlen.
  destruct (IH _ Hinv1) as (Hr & Ht & Hi); cbn [virtio_crypto_table].
  - by rewrite <- app_assoc.
  - rewrite length_app. simpl. lia.
  - cbn [virtio_crypto_table] in Ht. rewrite Hr, Ht, <- app_assoc. done.
Qed.

(** C6: from the empty registry, registering distinct handles, at most
    [VIRTIO_CRYPTO_MAX_DEVICES] of them, succeeds every time; the handle
    registered at position [i] gets id [i], so the ids are distinct and
    increase with each registration; and once
    [VIRTIO_CRYPTO_MAX_DEVICES] are registered, a further registration
    returns [-EFAULT] and changes nothing. *)
Theorem add_devs_up_to_capacity (hs : list ptr) (st : state) :
  empty_registry st →
  NoDup hs →
  Z.of_nat (length hs) <= VIRTIO_CRYPTO_MAX_DEVICES →
  let st' := (add_devs hs st).2 in
  (add_devs hs st).1 = replicate (length hs) 0
  ∧ virtio_crypto_table st' = hs
  ∧ (∀ (i : nat) (p : ptr), hs !! i = Some p → dev_id (mem st' p) = Z.of_nat i)
  ∧ (∀ (i j : nat) (p q : ptr),
       hs !! i = Some p → hs !! j = Some q → (i < j)%nat →
       dev_id (mem st' p) < dev_id (mem st' q))
  ∧ (Z.of_nat (length hs) = VIRTIO_CRYPTO_MAX_DEVICES →
     ∀ q : ptr, virtcrypto_devmgr_add_dev q st' = (- EFAULT, st')).
Proof.
  intros Hemp Hnd Hlen st'.
  pose proof (empty_registry_ids_in_order st Hemp) as Hinv.
  destruct Hemp as [Ht Hn].
  destruct (add_devs_fresh hs st Hinv) as (Hr & Ht' & Hinv').
  { by rewrite Ht. }
  { by rewrite Ht. }
  rewrite Ht in Ht'. simpl in Ht'. fold st' in Ht', Hinv'.
  destruct Hinv' as (_ & Hnum & _ & Hid). rewrite Ht' in Hid, Hnum.
  repeat split; [done | done | done | |].
  - intros i j p q Hi Hj Hij. rewrite (Hid i p Hi), (Hid j q Hj). lia.
  - intros Hfull q. apply add_dev_full. lia.
Qed.

Lemma list_del_elem_of (p q : ptr) (l : list ptr) :
  q ∈ list_del p l → q ∈ l.
Proof.
  induction l as [|x l IH]; simpl; [done|].
  case_decide; [by apply list_elem_of_further|].
  intros [->|Hq]%elem_of_cons; [apply list_elem_of_here|].
  by apply list_elem_of_further, IH.
Qed.

Lemma list_del_NoDup (p : ptr) (l : list ptr) :
  NoDup l → NoDup (list_del p l).
Proof.
  induction 1 as [|x l Hx Hnd IH]; simpl; [constructor|].
  case_decide; [done|]. constructor; [|done].
  intros Hin. by apply Hx, (list_del_elem_of p).
Qed.

Lemma list_del_length (p : ptr) (l : list ptr) :
  p ∈ l → S (length (list_del p l)) = length l.
Proof.
  induction l as [|x l IH]; simpl; [by intros ?%elem_of_nil|].
  case_decide as Hx; [done|].
  intros [->|Hp]%elem_of_cons; [done|]. simpl. by rewrite IH.
Qed.

(** Whatever the order of the removals, as long as each is of a device
    in the table, [num_devices] is the number of devices in the table,
    and that is the id the next registration gives. *)
Lemma reg_run_table_counted (ops : list reg_op) (st : state) :
  table_counted st → rm_present ops st = true →
  table_counted (reg_run ops st).
Proof.
  revert st. induction ops as [|o ops IH]; intros st Hinv Hops; [done|].
  simpl in Hops. apply andb_prop in Hops as [Ho Hops].
  unfold reg_run. simpl. apply IH; [|done]. clear IH Hops.
  destruct Hinv as (Hnd & Hlen & Hcap).
  unfold VIRTIO_CRYPTO_MAX_DEVICES in *.
  destruct o as [p|p]; simpl.
  - destruct (add_dev_cases p st) as [[-> _]|[[-> _]|(_ & Hn & Hp)]];
      [done..|].
    rewrite add_dev_fresh by done. unfold table_counted; simpl.
    unfold VIRTIO_CRYPTO_MAX_DEVICES in *.
    rewrite wrap_u32_small by lia. rewrite length_app. simpl.
    split_and!; [|lia..].
    apply list.NoDup_app. split_and!; [done | | apply NoDup_singleton].
    intros x Hx Hx'%list_elem_of_singleton. by subst x.
  - apply bool_decide_eq_true in Ho.
    pose proof (list_del_length p _ Ho) as Hdel.
    unfold table_counted, virtcrypto_devmgr_rm_dev; simpl.
    unfold VIRTIO_CRYPTO_MAX_DEVICES.
    rewrite wrap_u32_small by lia.
    split_and!; [by apply list_del_NoDup | lia | lia].
Qed.

Lemma add_dev_id_is_count (p : ptr) (st : state) :
  (virtcrypto_devmgr_add_dev p st).1 = 0 →
  dev_id (mem (virtcrypto_devmgr_add_dev p st).2 p) = num_devices st.
Proof.
  intros Hr.
  destruct (add_dev_cases p st) as [[E _]|[[E _]|(_ & Hn & Hp)]];
    [rewrite E in Hr; done..|].
  rewrite add_dev_fresh by done. simpl. by rewrite fn_lookup_alter.
Qed.

(** ** Reference counts *)

Lemma wrap_int_succ_one (v : Z) : int_range v → wrap_int (v + 1) = 1 ↔ v = 0.
Proof.
  unfold int_range, wrap_int. intros Hv. split; [|by intros ->].
  intros H.
  destruct (decide (v = 2 ^ 31 - 1)) as [->|Hne]; [done|].
  rewrite Z.mod_small in H; lia.
Qed.

Lemma wrap_int_pred_zero (v : Z) : int_range v → wrap_int (v - 1) = 0 ↔ v = 1.
Proof.
  unfold int_range, wrap_int. intros Hv. split; [|by intros ->].
  intros H.
  destruct (decide (v = - 2 ^ 31)) as [->|Hne]; [done|].
  rewrite Z.mod_small in H; lia.
Qed.

Lemma wrap_int_add_l (a b : Z) : wrap_int (wrap_int a + b) = wrap_int (a + b).
Proof.
  unfold wrap_int.
  replace ((a + 2 ^ 31) mod 2 ^ 32 - 2 ^ 31 + b + 2 ^ 31)
    with ((a + 2 ^ 31) mod 2 ^ 32 + b) by lia.
  rewrite Zplus_mod_idemp_l. do 2 f_equal. lia.
Qed.

(** What one [virtcrypto_dev_get] does to the device and to the calls. *)
Lemma dev_get_step (ok : bool) (p : ptr) (st : state) :
  int_range (ref_count (mem st p)) →
  let r := virtcrypto_dev_get ok p st in
  ref_count (mem r.2 p) = wrap_int (ref_count (mem st p) + 1)
  ∧ owner (mem r.2 p) = owner (mem st p)
  ∧ (ref_count (mem st p) = 0 →
       ref_count (mem r.2 p) = 1
       ∧ calls r.2 = try_module_get_ev (owner (mem st p)) ok :: calls st
       ∧ r.1 = if ok then 0 else - EFAULT)
  ∧ (ref_count (mem st p) ≠ 0 →
       ref_count (mem r.2 p) ≠ 1 ∧ calls r.2 = calls st ∧ r.1 = 0).
Proof.
  intros Hv r. subst r.
  pose proof (wrap_int_succ_one _ Hv) as H1.
  unfold virtcrypto_dev_get, atomic_add_return. cbn zeta.
  case_decide as Hd.
  - apply H1 in Hd as Hz.
    destruct ok; cbn; rewrite !fn_lookup_alter; cbn;
      split_and!; try done; intros; split_and!; done.
  - assert (ref_count (mem st p) ≠ 0) by (intros Hz; by apply Hd, H1).
    cbn. rewrite !fn_lookup_alter. cbn.
    split_and!; try done; intros; split_and!; done.
Qed.

(** What one [virtcrypto_dev_put] does to the device and to the calls. *)
Lemma dev_put_step (p : ptr) (st : state) :
  int_range (ref_count (mem st p)) →
  let st' := virtcrypto_dev_put p st in
  ref_count (mem st' p) = wrap_int (ref_count (mem st p) - 1)
  ∧ owner (mem st' p) = owner (mem st p)
  ∧ (ref_count (mem st p) = 1 →
       ref_count (mem st' p) = 0
       ∧ calls st' = module_put_ev (owner (mem st p)) :: calls st)
  ∧ (ref_count (mem st p) ≠ 1 →
       ref_count (mem st' p) ≠ 0 ∧ calls st' = calls st).
Proof.
  intros Hv st'. subst st'.
  pose proof (wrap_int_pred_zero _ Hv) as H1.
  unfold virtcrypto_dev_put, atomic_sub_return. cbn zeta.
  case_decide as Hd.
  - apply H1 in Hd as Hz.
    cbn; rewrite !fn_lookup_alter; cbn.
    split_and!; try done; intros; split_and!; done.
  - assert (ref_count (mem st p) ≠ 1) by (intros Hz; by apply Hd, H1).
    cbn. rewrite !fn_lookup_alter. cbn.
    split_and!; try done; intros; split_and!; done.
Qed.

(** C2: on a device with [ref_count] 0, when [try_module_get] fails,
    [virtcrypto_dev_get] returns [-EFAULT] and leaves [ref_count] at 1:
    the increment is not taken back. *)
Theorem dev_get_pin_failed_keeps_count (p : ptr) (st : state) :
  ref_count (mem st p) = 0 →
  (virtcrypto_dev_get false p st).1 = - EFAULT
  ∧ ref_count (mem (virtcrypto_dev_get false p st).2 p) = 1
  ∧ calls (virtcrypto_dev_get false p st).2
      = try_module_get_ev (owner (mem st p)) false :: calls st.
Proof.
  intros Hz.
  destruct (dev_get_step false p st) as (_ & _ & H0 & _).
  { rewrite Hz. unfold int_range. lia. }
  destruct (H0 Hz) as (? & ? & ?). done.
Qed.

Lemma ref_run_cons (p : ptr) (o : ref_op) (ops : list ref_op) (st : state) :
  ref_run p (o :: ops) st =
    ((ref_step p o st).1 :: (ref_run p ops (ref_step p o st).2).1,
     (ref_run p ops (ref_step p o st).2).2).
Proof.
  simpl. destruct (ref_step p o st) as [r st1]. simpl.
  by destruct (ref_run p ops st1).
Qed.

Lemma transitions_ref_counts_cons (a b : Z) (p : ptr) (o : ref_op)
    (ops : list ref_op) (st : state) :
  transitions a b (ref_counts p (o :: ops) st) =
    ((if decide (ref_count (mem st p) = a
                 ∧ ref_count (mem (ref_step p o st).2 p) = b)
      then 1 else 0)
     + transitions a b (ref_counts p ops (ref_step p o st).2))%nat.
Proof. by destruct ops. Qed.

(** One call of the sequence: the new count, the owner, and each kind of
    external call against the change of the count. *)
Lemma ref_step_counts (p : ptr) (m : module_ptr) (o : ref_op) (st : state) :
  owner (mem st p) = m →
  int_range (ref_count (mem st p)) →
  let r := ref_step p o st in
  let v := ref_count (mem st p) in
  let v' := ref_count (mem r.2 p) in
  owner (mem r.2 p) = m
  ∧ int_range v'
  ∧ v' = wrap_int (v + (if is_get o then 1 else 0) - (if is_put o then 1 else 0))
  ∧ count_calls (is_try_get m) r.2
      = (count_calls (is_try_get m) st
         + if decide (v = 0 ∧ v' = 1)%Z then 1 else 0)%nat
  ∧ count_calls (is_module_put m) r.2
      = (count_calls (is_module_put m) st
         + if decide (v = 1 ∧ v' = 0)%Z then 1 else 0)%nat
  ∧ (r.1 = 0 →
     count_calls (is_pinned m) r.2
       = (count_calls (is_pinned m) st
          + if decide (v = 0 ∧ v' = 1)%Z then 1 else 0)%nat).
Proof.
  intros Hm Hv r v v'. subst r v v'. unfold count_calls.
  destruct o as [ok|]; cbn [ref_step fst snd is_get is_put].
  - destruct (dev_get_step ok p st Hv) as (Hc & Ho & H0 & Hn).
    split_and!; [congruence | rewrite Hc; apply wrap_int_range
                 | rewrite Hc; f_equal; lia | ..].
    all: destruct (decide (ref_count (mem st p) = 0)) as [Hz|Hz].
    all: try (destruct (H0 Hz) as (H1 & -> & Hr); rewrite Hz, H1, Hm).
    all: try (destruct (Hn Hz) as (H1 & -> & Hr)).
    all: cbn [List.filter is_try_get is_module_put is_pinned].
    all: rewrite ?bool_decide_eq_true_2 by done.
    all: try (rewrite decide_True by done).
    all: try (rewrite decide_False by (intros [? ?]; congruence)).
    all: try (cbn; lia).
    + rewrite Hc. case_decide as Hd; [|lia].
      destruct Hd as [Hd1 Hd]. rewrite Hd1 in Hd. done.
    + intros Hok. rewrite Hr in Hok. destruct ok; [cbn; lia | done].
  - destruct (dev_put_step p st Hv) as (Hc & Ho & H1 & Hn).
    split_and!; [congruence | rewrite Hc; apply wrap_int_range
                 | rewrite Hc; f_equal; lia | ..].
    all: destruct (decide (ref_count (mem st p) = 1)) as [Hz|Hz].
    all: try (destruct (H1 Hz) as (H0 & ->); rewrite Hz, H0, Hm).
    all: try (destruct (Hn Hz) as (H0 & ->)).
    all: cbn [List.filter is_try_get is_module_put is_pinned].
    all: rewrite ?bool_decide_eq_true_2 by done.
    all: try (rewrite decide_True by done).
    all: try (rewrite decide_False by (intros [? ?]; congruence)).
    all: try (cbn; lia).
    all: try (intros _).
    all: rewrite Hc; case_decide as Hd; [|lia].
    all: destruct Hd as [Hd1 Hd]; rewrite Hd1 in Hd; done.
Qed.

Lemma gets_cons (o : ref_op) (ops : list ref_op) :
  gets (o :: ops) = ((if is_get o then 1 else 0) + gets ops)%nat.
Proof. unfold gets. simpl. by destruct (is_get o). Qed.

Lemma puts_cons (o : ref_op) (ops : list ref_op) :
  puts (o :: ops) = ((if is_put o then 1 else 0) + puts ops)%nat.
Proof. unfold puts. simpl. by destruct (is_put o). Qed.

(** A whole sequence: the count moves by the calls of
    [virtcrypto_dev_get] less those of [virtcrypto_dev_put], in [int]
    arithmetic, and the external calls follow the changes of the count. *)
Lemma ref_run_counts (p : ptr) (m : module_ptr) (ops : list ref_op)
    (st : state) :
  owner (mem st p) = m →
  int_range (ref_count (mem st p)) →
  let r := ref_run p ops st in
  ref_count (mem r.2 p)
    = wrap_int (ref_count (mem st p) + Z.of_nat (gets ops) - Z.of_nat (puts ops))
  ∧ count_calls (is_try_get m) r.2
      = (count_calls (is_try_get m) st
         + transitions 0 1 (ref_counts p ops st))%nat
  ∧ count_calls (is_module_put m) r.2
      = (count_calls (is_module_put m) st
         + transitions 1 0 (ref_counts p ops st))%nat
  ∧ (Forall (λ x, x = 0) r.1 →
     count_calls (is_pinned m) r.2
       = (count_calls (is_pinned m) st
          + transitions 0 1 (ref_counts p ops st))%nat).
Proof.
  revert st. induction ops as [|o ops IH]; intros st Hm Hv r; subst r.
  { cbn. rewrite Z.add_0_r, Z.sub_0_r, wrap_int_small by done.
    split_and!; intros; lia. }
  rewrite ref_run_cons, !transitions_ref_counts_cons, gets_cons, puts_cons.
  cbn [fst snd].
  destruct (ref_step_counts p m o st Hm Hv) as (Ho & Hv1 & Hc & Ht & Hp & Hk).
  destruct (IH _ Ho Hv1) as (IHc & IHt & IHp & IHk).
  split_and!.
  - rewrite IHc, Hc, <- Z.add_sub_assoc, wrap_int_add_l. f_equal.
    destruct (is_get o), (is_put o); lia.
  - rewrite IHt, Ht. lia.
  - rewrite IHp, Hp. lia.
  - intros Hall. apply list.Forall_cons_1 in Hall as [Hr Hrs]. rewrite (IHk Hrs), (Hk Hr). lia.
Qed.

(** C8: after [N] calls of [virtcrypto_dev_get] and [N] of
    [virtcrypto_dev_put] on a device, in whatever order, [ref_count] is
    what it was; [try_module_get] is called once for each step of the
    count from 0 to 1 and at no other time, [module_put] once for each
    step from 1 to 0 and at no other time; and when every
    [virtcrypto_dev_get] of the sequence returned 0, the module reference
    was obtained once for each step from 0 to 1. *)
Theorem get_put_paired (p : ptr) (ops : list ref_op) (N : nat) (st : state) :
  int_range (ref_count (mem st p)) →
  gets ops = N →
  puts ops = N →
  let r := ref_run p ops st in
  let m := owner (mem st p) in
  ref_count (mem r.2 p) = ref_count (mem st p)
  ∧ count_calls (is_try_get m) r.2
      = (count_calls (is_try_get m) st
         + transitions 0 1 (ref_counts p ops st))%nat
  ∧ count_calls (is_module_put m) r.2
      = (count_calls (is_module_put m) st
         + transitions 1 0 (ref_counts p ops st))%nat
  ∧ (Forall (λ x, x = 0) r.1 →
     count_calls (is_pinned m) r.2
       = (count_calls (is_pinned m) st
          + transitions 0 1 (ref_counts p ops st))%nat).
Proof.
  intros Hv Hg Hp r m.
  destruct (ref_run_counts p m ops st eq_refl Hv) as (Hc & Ht & Hm & Hk).
  split_and!; [|done..].
  subst r. rewrite Hc, Hg, Hp.
  replace (ref_count (mem st p) + Z.of_nat N - Z.of_nat N)
    with (ref_count (mem st p)) by lia.
  by apply wrap_int_small.
Qed.

(** ** Status and selection *)

Lemma land_mask_bounds (x : Z) :
  0 <= Z.land x VIRTIO_CRYPTO_S_STARTED <= VIRTIO_CRYPTO_S_STARTED.
Proof.
  apply Z.ldiff_le; [lia|].
  apply Z.bits_inj'. intros n Hn.
  rewrite Z.ldiff_spec, Z.land_spec, Z.bits_0.
  by destruct (Z.testbit x n), (Z.testbit VIRTIO_CRYPTO_S_STARTED n).
Qed.

(** The test the code makes is the test of the flag. *)
Lemma dev_started_iff (p : ptr) (st : state) :
  virtcrypto_dev_started p st ≠ 0 ↔ started st p.
Proof.
  unfold virtcrypto_dev_started, started.
  pose proof (land_mask_bounds (status (mem st p))) as Hb.
  set (x := Z.land _ _) in *.
  unfold wrap_int.
  destruct (decide (x < 2 ^ 31)).
  - rewrite Z.mod_small by lia. lia.
  - replace (x + 2 ^ 31) with (x - 2 ^ 31 + 1 * 2 ^ 32) by lia.
    rewrite Z.mod_add by lia. rewrite Z.mod_small by lia. lia.
Qed.

(** C9: when [virtio_crypto_algs_register] fails,
    [virtcrypto_dev_start] returns [-EFAULT] and no device is changed,
    the handle's status included; when it succeeds,
    [virtcrypto_dev_start] returns 0 and the handle is started. *)
Theorem dev_start_status (algs_ret : Z) (p : ptr) (st : state) :
  let r := virtcrypto_dev_start algs_ret p st in
  (algs_ret ≠ 0 →
     r.1 = - EFAULT ∧ mem r.2 = mem st
     ∧ status (mem r.2 p) = status (mem st p))
  ∧ (algs_ret = 0 →
     r.1 = 0
     ∧ status (mem r.2 p) = Z.lor (status (mem st p)) VIRTIO_CRYPTO_S_STARTED
     ∧ started r.2 p
     ∧ virtcrypto_dev_started p r.2 ≠ 0).
Proof.
  intros r. subst r. unfold virtcrypto_dev_start. split; intros Hret.
  - by rewrite decide_True.
  - rewrite decide_False by (intros ?; done). cbn [fst snd].
    assert (Hst : started
              (with_mem (alter (λ d, set_status
                 (Z.lor (status d) VIRTIO_CRYPTO_S_STARTED) d) p)
                 (log (algs_register_ev algs_ret) st)) p).
    { unfold started. cbn. rewrite fn_lookup_alter. cbn.
      rewrite Z.land_lor_distr_l, Z.land_diag.
      intros H0. apply Z.lor_eq_0_iff in H0 as [_ H0]. lia. }
    split_and!; [done | | done | by apply dev_started_iff].
    cbn. by rewrite fn_lookup_alter.
Qed.

Lemma dev_get_other_fields (ok : bool) (p q : ptr) (st : state) :
  let st' := (virtcrypto_dev_get ok p st).2 in
  status (mem st' q) = status (mem st q)
  ∧ numa_node (mem st' q) = numa_node (mem st q)
  ∧ dev_id (mem st' q) = dev_id (mem st q)
  ∧ virtio_crypto_table st' = virtio_crypto_table st
  ∧ num_devices st' = num_devices st.
Proof.
  unfold virtcrypto_dev_get, atomic_add_return. cbn zeta.
  case_decide; [destruct ok|]; cbn;
    (destruct (decide (p = q)) as [->|Hne];
     [rewrite fn_lookup_alter | rewrite fn_lookup_alter_ne by done]); done.
Qed.

(** The test of the first loop is the test for a candidate. *)
Lemma scan_test_candidate (node : Z) (st : state) (q : ptr) :
  (node = numa_node (mem st q) ∨ numa_node (mem st q) < 0)
  ∧ virtcrypto_dev_started q st ≠ 0
  ↔ candidate node st q.
Proof.
  unfold candidate, affine. rewrite dev_started_iff.
  split.
  - intros [[->|Hn] Hs]; auto.
  - intros [Hs [<-|Hn]]; auto.
Qed.

Lemma get_dev_node_any_None (st : state) (l : list ptr) :
  get_dev_node_any st l = None ↔ ∀ q, q ∈ l → ¬ started st q.
Proof.
  induction l as [|x l IH]; simpl.
  - split; [|done]. intros _ q Hq. by apply elem_of_nil in Hq.
  - case_decide as Hx.
    + split; [done|]. intros Hall. exfalso.
      apply (Hall x); [apply list_elem_of_here | by apply dev_started_iff].
    + rewrite IH. split.
      * intros Hall q [->|Hq]%elem_of_cons; [|by apply Hall].
        intros Hs. by apply dev_started_iff in Hs.
      * intros Hall q Hq. apply Hall. by apply list_elem_of_further.
Qed.

Lemma get_dev_node_any_first (st : state) (l : list ptr) (p : ptr) :
  get_dev_node_any st l = Some p → first_started st l p.
Proof.
  induction l as [|x l IH]; simpl; [done|].
  case_decide as Hx.
  - intros [= ->]. exists [], l. split_and!; [done | by apply dev_started_iff |].
    intros q Hq. by apply elem_of_nil in Hq.
  - intros (l1 & l2 & -> & Hp & Hl1)%IH.
    exists (x :: l1), l2. split_and!; [done | done |].
    intros q [->|Hq]%elem_of_cons; [|by apply Hl1].
    intros Hs. by apply dev_started_iff in Hs.
Qed.

(** What the first loop can end with: the device it had, or a candidate
    of the entries it went through. *)
Lemma get_dev_node_scan_Some (node : Z) (st : state) (l : list ptr)
    (acc : option ptr) (best : Z) (p : ptr) :
  get_dev_node_scan node st l acc best = Some p →
  acc = Some p ∨ (p ∈ l ∧ candidate node st p).
Proof.
  revert acc best. induction l as [|x l IH]; intros acc best; simpl; [auto|].
  case_decide as Hx; [case_decide|]; intros [Hacc|[Hin Hc]]%IH; auto.
  - injection Hacc as ->. right. split; [apply list_elem_of_here|].
    by apply scan_test_candidate.
  - right. split; [by apply list_elem_of_further | done].
  - right. split; [by apply list_elem_of_further | done].
  - right. split; [by apply list_elem_of_further | done].
Qed.

Lemma get_dev_node_found_Some (node : Z) (st : state) (p : ptr) :
  get_dev_node_found node st = Some p →
  p ∈ virtio_crypto_table st ∧ started st p.
Proof.
  unfold get_dev_node_found, virtcrypto_devmgr_get_head.
  destruct (get_dev_node_scan _ _ _ _ _) as [p'|] eqn:E.
  - intros [= ->]. apply get_dev_node_scan_Some in E as [?|[? [? ?]]]; done.
  - intros (l1 & l2 & -> & Hp & _)%get_dev_node_any_first.
    split; [|done]. apply elem_of_app. right. apply list_elem_of_here.
Qed.

Lemma get_dev_node_found_None (node : Z) (st : state) :
  get_dev_node_found node st = None ↔
  ∀ q, q ∈ virtio_crypto_table st → ¬ started st q.
Proof.
  unfold get_dev_node_found, virtcrypto_devmgr_get_head.
  destruct (get_dev_node_scan _ _ _ _ _) as [p'|] eqn:E.
  - split; [done|]. intros Hall. exfalso.
    apply get_dev_node_scan_Some in E as [?|[Hin [Hs _]]]; [done|].
    by apply (Hall p').
  - apply get_dev_node_any_None.
Qed.

Lemma get_dev_node_fst (ok : bool) (node : Z) (st : state) :
  (virtcrypto_get_dev_node ok node st).1 = get_dev_node_found node st.
Proof.
  unfold virtcrypto_get_dev_node. by destruct (get_dev_node_found node st).
Qed.

(** C5: [virtcrypto_get_dev_node] returns no device exactly when no
    device of the table is started, and a device it returns is in the
    table and started, before the call and after it. *)
Theorem get_dev_node_none_iff (ok : bool) (node : Z) (st : state) :
  let r := virtcrypto_get_dev_node ok node st in
  (r.1 = None ↔ ∀ q, q ∈ virtio_crypto_table st → ¬ started st q)
  ∧ ∀ p, r.1 = Some p →
      p ∈ virtio_crypto_table st ∧ started st p ∧ started r.2 p.
Proof.
  intros r. subst r. rewrite get_dev_node_fst. split.
  - apply get_dev_node_found_None.
  - intros p Hp. destruct (get_dev_node_found_Some node st p Hp) as [Hin Hs].
    split_and!; [done..|].
    unfold virtcrypto_get_dev_node. rewrite Hp. cbn [snd].
    unfold started in *.
    by destruct (dev_get_other_fields ok p p st) as (-> & _).
Qed.

(** C3: when the two loops have found a device,
    [virtcrypto_get_dev_node] returns it whatever [try_module_get]
    answers; if the device held no reference and [try_module_get] fails,
    the [virtcrypto_dev_get] made for the caller returns [-EFAULT], and
    the device is returned all the same, in the state that one call
    left. *)
Theorem get_dev_node_ignores_pin_failure (node : Z) (st : state) (p : ptr) :
  get_dev_node_found node st = Some p →
  (∀ ok : bool, (virtcrypto_get_dev_node ok node st).1 = Some p)
  ∧ (ref_count (mem st p) = 0 →
     (virtcrypto_dev_get false p st).1 = - EFAULT
     ∧ virtcrypto_get_dev_node false node st
         = (Some p, (virtcrypto_dev_get false p st).2)).
Proof.
  intros Hp. split.
  - intros ok. by rewrite get_dev_node_fst.
  - intros Hz. split.
    + destruct (dev_get_step false p st) as (_ & _ & H0 & _).
      { rewrite Hz. unfold int_range. lia. }
      by destruct (H0 Hz) as (_ & _ & ->).
    + unfold virtcrypto_get_dev_node. by rewrite Hp.
Qed.

(** A stopped device is not started, and so is not selected. *)
Lemma dev_stop_not_started (p : ptr) (st : state) :
  (virtcrypto_dev_stop p st).1 = 0
  ∧ ¬ started (virtcrypto_dev_stop p st).2 p.
Proof.
  split; [done|]. unfold started, virtcrypto_dev_stop. cbn.
  rewrite fn_lookup_alter. cbn.
  rewrite <- Z.land_assoc, (Z.land_comm (Z.lnot _)), Z.land_lnot_diag, Z.land_0_r.
  by intros ?.
Qed.

Lemma ulong_max : ulong (Z.lnot 0) = 2 ^ BITS_PER_LONG - 1
  ∧ 2 ^ 32 <= 2 ^ BITS_PER_LONG.
Proof.
  assert (2 ^ 32 <= 2 ^ BITS_PER_LONG) by (apply Z.pow_le_mono_r; lia).
  split; [|done].
  change (Z.lnot 0) with (-1). unfold ulong.
  symmetry. apply (Z.mod_unique _ _ (-1)); lia.
Qed.

Lemma ulong_count (v : Z) : 0 <= v < 2 ^ 31 → ulong v = v.
Proof.
  intros Hv. destruct ulong_max as [_ Hb].
  unfold ulong. apply Z.mod_small. lia.
Qed.

Lemma scan_inv_step (node : Z) (st : state) (pre : list ptr) (x : ptr)
    (acc : option ptr) (best : Z) :
  0 <= ref_count (mem st x) < 2 ^ 31 →
  scan_inv node st pre acc best →
  (¬ candidate node st x → scan_inv node st (pre ++ [x]) acc best)
  ∧ (candidate node st x →
     if decide (best > ulong (atomic_read x st)) then
       scan_inv node st (pre ++ [x]) (Some x) (ulong (atomic_read x st))
     else scan_inv node st (pre ++ [x]) acc best).
Proof.
  intros Hx Hinv. unfold atomic_read. rewrite (ulong_count _ Hx).
  destruct ulong_max as [Hmax Hb].
  destruct acc as [p|]; cbn [scan_inv] in *.
  - destruct Hinv as (-> & l1 & l2 & -> & Hp & Hl1 & Hl2).
    assert (Hkeep : ref_count (mem st p) <= ref_count (mem st x)
                    ∨ ¬ candidate node st x →
                    least_loaded_first node st ((l1 ++ p :: l2) ++ [x]) p).
    { intros Hle. exists l1, (l2 ++ [x]).
      split_and!; [by rewrite <- app_assoc | done | done |].
      intros q [Hq|Hq%list_elem_of_singleton]%elem_of_app Hc; [by apply Hl2|].
      subst q. destruct Hle; [lia | done]. }
    split; [auto|]. intros Hc. case_decide as Hgt; [|split; [done|]; apply Hkeep; lia].
    split; [done|]. exists (l1 ++ p :: l2), []. split_and!; [done | done | |].
    + intros q Hq Hcq.
      apply elem_of_app in Hq as [Hq|Hq]; [specialize (Hl1 q Hq Hcq); lia|].
      apply elem_of_cons in Hq as [->|Hq]; [lia|].
      specialize (Hl2 q Hq Hcq). lia.
    + intros q Hq. by apply elem_of_nil in Hq.
  - destruct Hinv as (-> & Hpre). split.
    + intros Hnc. split; [done|].
      intros q [Hq|Hq%list_elem_of_singleton]%elem_of_app; [by apply Hpre|].
      by subst q.
    + intros Hc. rewrite decide_True by lia.
      split; [done|]. exists pre, []. split_and!; [done | done | |].
      * intros q Hq Hcq. by apply Hpre in Hcq.
      * intros q Hq. by apply elem_of_nil in Hq.
Qed.

Lemma get_dev_node_scan_inv (node : Z) (st : state) (l pre : list ptr)
    (acc : option ptr) (best : Z) :
  counts_in_range st l →
  scan_inv node st pre acc best →
  scan_post node st (pre ++ l) (get_dev_node_scan node st l acc best).
Proof.
  revert pre acc best. induction l as [|x l IH]; intros pre acc best Hr Hinv.
  { rewrite app_nil_r. simpl. destruct acc; cbn in *; by destruct Hinv. }
  assert (Hx : 0 <= ref_count (mem st x) < 2 ^ 31).
  { apply Hr, list_elem_of_here. }
  assert (Hl : counts_in_range st l).
  { intros q Hq. by apply Hr, list_elem_of_further. }
  destruct (scan_inv_step node st pre x acc best Hx Hinv) as [Hno Hyes].
  replace (pre ++ x :: l) with ((pre ++ [x]) ++ l) by by rewrite <- app_assoc.
  cbn [get_dev_node_scan].
  destruct (decide (_ ∧ _)) as [Ht|Ht].
  - apply scan_test_candidate in Ht. specialize (Hyes Ht).
    destruct (decide (best > _)); by apply IH.
  - apply IH; [done|]. apply Hno. intros Hc. apply scan_test_candidate in Hc.
    tauto.
Qed.

(** C4: with counts that are counts, when the table has a started
    device on the node asked for or on none,
    [virtcrypto_get_dev_node] returns the one of them that holds the
    fewest references, the first such in the table; when it has none but
    has a started device, it returns the first started device of the
    table. *)
Theorem get_dev_node_least_loaded (ok : bool) (node : Z) (st : state) :
  counts_in_range st (virtio_crypto_table st) →
  let r := virtcrypto_get_dev_node ok node st in
  ((∃ q, q ∈ virtio_crypto_table st ∧ candidate node st q) →
     ∃ p, r.1 = Some p
          ∧ least_loaded_first node st (virtio_crypto_table st) p)
  ∧ ((∀ q, q ∈ virtio_crypto_table st → ¬ candidate node st q) →
     (∃ q, q ∈ virtio_crypto_table st ∧ started st q) →
     ∃ p, r.1 = Some p ∧ first_started st (virtio_crypto_table st) p).
Proof.
  intros Hr r. subst r. rewrite get_dev_node_fst.
  pose proof (get_dev_node_scan_inv node st (virtio_crypto_table st) [] None
                (ulong (Z.lnot 0)) Hr) as Hscan.
  cbn [app] in Hscan. unfold get_dev_node_found, virtcrypto_devmgr_get_head.
  destruct (get_dev_node_scan _ _ _ _ _) as [p|] eqn:E; cbn in Hscan.
  - split.
    + intros _. exists p. split; [done|]. apply Hscan. split; [done|].
      intros q Hq. by apply elem_of_nil in Hq.
    + intros Hnone _. exfalso.
      destruct Hscan as (l1 & l2 & Hl & Hc & _).
      { split; [done|]. intros q Hq. by apply elem_of_nil in Hq. }
      apply (Hnone p); [|done]. rewrite Hl.
      apply elem_of_app. right. apply list_elem_of_here.
  - split.
    + intros (q & Hq & Hc). exfalso. apply (Hscan) in Hc; [done| |done].
      split; [done|]. intros q' Hq'. by apply elem_of_nil in Hq'.
    + intros _ (q & Hq & Hs).
      destruct (get_dev_node_any st (virtio_crypto_table st)) as [p|] eqn:Ea.
      * exists p. split; [done|]. by apply get_dev_node_any_first.
      * exfalso. by apply (proj1 (get_dev_node_any_None st _) Ea q).
Qed.

(** ** More on the table *)

Lemma list_del_filter (p : ptr) (l : list ptr) :
  NoDup l → list_del p l = filter (λ q, q ≠ p) l.
Proof.
  induction 1 as [|x l Hx Hnd IH]; simpl; [done|].
  case_decide as Hxp.
  - subst x. rewrite filter_cons_False by (intros ?; done).
    clear IH Hnd. induction l as [|y l IH]; [done|].
    apply not_elem_of_cons in Hx as [Hne Hx].
    rewrite filter_cons_True by done. by rewrite <- IH.
  - rewrite filter_cons_True by done. by rewrite IH.
Qed.


(** X2: from the empty registry, through any registrations and any
    removals of devices that are in the table, the entries of the table
    stay distinct, [num_devices] is their number, and there are never
    more than [VIRTIO_CRYPTO_MAX_DEVICES]. *)
Theorem reg_run_counts_devices (ops : list reg_op) (st : state) :
  empty_registry st →
  rm_present ops st = true →
  let st' := reg_run ops st in
  NoDup (virtio_crypto_table st')
  ∧ num_devices st' = Z.of_nat (length (virtio_crypto_table st'))
  ∧ Z.of_nat (length (virtio_crypto_table st')) <= VIRTIO_CRYPTO_MAX_DEVICES.
Proof.
  intros [Ht Hn] Hops st'.
  destruct (reg_run_table_counted ops st) as (Hnd & Hlen & Hcap); [|done|].
  { unfold table_counted. rewrite Ht, Hn. split_and!; [constructor|done..]. }
  split_and!; [done | done |]. fold st' in Hlen, Hcap. lia.
Qed.

(** X3: removing a device that is in the table takes out its entry and
    no other, keeps the order of the rest, and takes one from
    [num_devices]; no device is written to, and the [ref_count] of the
    removed device is not looked at: it is removed in use or not, with
    its count as it was. *)
Theorem rm_dev_removes (p : ptr) (st : state) :
  NoDup (virtio_crypto_table st) →
  p ∈ virtio_crypto_table st →
  let st' := virtcrypto_devmgr_rm_dev p st in
  virtio_crypto_table st' = filter (λ q, q ≠ p) (virtio_crypto_table st)
  ∧ (p ∉ virtio_crypto_table st')
  ∧ S (length (virtio_crypto_table st')) = length (virtio_crypto_table st)
  ∧ num_devices st' = wrap_u32 (num_devices st - 1)
  ∧ mem st' = mem st
  ∧ calls st' = calls st.
Proof.
  intros Hnd Hp st'. subst st'. unfold virtcrypto_devmgr_rm_dev. cbn.
  rewrite (list_del_filter p _ Hnd) at 1 2.
  split_and!; [done | | by apply list_del_length | done..].
  intros [Hne _]%list_elem_of_filter. done.
Qed.

Lemma wrap_u32_succ_pred (n : Z) :
  0 <= n < 2 ^ 32 → wrap_u32 (wrap_u32 (n + 1) - 1) = n.
Proof.
  intros Hn. unfold wrap_u32.
  rewrite Zminus_mod_idemp_l.
  replace (n + 1 - 1) with n by lia. by apply Z.mod_small.
Qed.

(** X4: a registration that succeeds, followed by the removal of the
    same device, gives back the table and [num_devices] as they were;
    of the devices only the one registered has changed. *)
Theorem add_then_rm (p : ptr) (st : state) :
  0 <= num_devices st < 2 ^ 32 →
  (virtcrypto_devmgr_add_dev p st).1 = 0 →
  let st' := virtcrypto_devmgr_rm_dev p (virtcrypto_devmgr_add_dev p st).2 in
  virtio_crypto_table st' = virtio_crypto_table st
  ∧ num_devices st' = num_devices st
  ∧ (∀ q, q ≠ p → mem st' q = mem st q)
  ∧ calls st' = calls st.
Proof.
  intros Hn Hr st'. subst st'.
  destruct (add_dev_cases p st) as [[E _]|[[E _]|(_ & Hne & Hp)]];
    [rewrite E in Hr; done..|].
  rewrite add_dev_fresh by done.
  unfold virtcrypto_devmgr_rm_dev. cbn.
  rewrite list_del_snoc by done. rewrite wrap_u32_succ_pred by done.
  split_and!; [done | done | | done].
  intros q Hq. by rewrite !fn_lookup_alter_ne.
Qed.

(** X5: with the table full, a registration is refused with [-EFAULT];
    once a device of the table is removed, the registration of a device
    that is not in the table, the removed one included, succeeds. *)
Theorem rm_makes_room (p q : ptr) (st : state) :
  table_counted st →
  num_devices st = VIRTIO_CRYPTO_MAX_DEVICES →
  p ∈ virtio_crypto_table st →
  q ∉ virtio_crypto_table st ∨ q = p →
  (virtcrypto_devmgr_add_dev q st).1 = - EFAULT
  ∧ (virtcrypto_devmgr_add_dev q (virtcrypto_devmgr_rm_dev p st)).1 = 0.
Proof.
  intros (Hnd & Hlen & Hcap) Hfull Hp Hq.
  split; [by rewrite add_dev_full|].
  rewrite add_dev_fresh; [done | |].
  - unfold virtcrypto_devmgr_rm_dev. cbn.
    rewrite Hfull. unfold VIRTIO_CRYPTO_MAX_DEVICES. by vm_compute.
  - unfold virtcrypto_devmgr_rm_dev. cbn.
    rewrite (list_del_filter p _ Hnd).
    intros [Hne Hin]%list_elem_of_filter. destruct Hq; done.
Qed.


(** ** More on reference counts *)

(** X7: a device just registered is not in use, whatever its count was
    before; after one [virtcrypto_dev_get] it is in use, also when
    [try_module_get] failed and the call returned [-EFAULT]; and after
    the [virtcrypto_dev_put] that follows it is not in use. *)
Theorem in_use_after_add (p : ptr) (st : state) :
  (virtcrypto_devmgr_add_dev p st).1 = 0 →
  let st1 := (virtcrypto_devmgr_add_dev p st).2 in
  virtcrypto_dev_in_use p st1 = 0
  ∧ ∀ ok : bool,
      virtcrypto_dev_in_use p (virtcrypto_dev_get ok p st1).2 = 1
      ∧ virtcrypto_dev_in_use p
          (virtcrypto_dev_put p (virtcrypto_dev_get ok p st1).2) = 0.
Proof.
  intros Hr st1.
  assert (Hz : ref_count (mem st1 p) = 0).
  { subst st1.
    destruct (add_dev_cases p st) as [[E _]|[[E _]|(_ & Hn & Hp)]];
      [rewrite E in Hr; done..|].
    rewrite add_dev_fresh by done. cbn. by rewrite !fn_lookup_alter. }
  assert (Hv : int_range (ref_count (mem st1 p))).
  { rewrite Hz. unfold int_range. lia. }
  unfold virtcrypto_dev_in_use, atomic_read.
  split; [by rewrite Hz, decide_False by (intros ?; done)|].
  intros ok.
  destruct (dev_get_step ok p st1 Hv) as (Hc & _ & H0 & _).
  destruct (H0 Hz) as (H1 & _ & _).
  split; [rewrite H1; by rewrite decide_True|].
  destruct (dev_put_step p (virtcrypto_dev_get ok p st1).2) as (_ & _ & Hp1 & _).
  { rewrite H1. unfold int_range. lia. }
  destruct (Hp1 H1) as [-> _]. by rewrite decide_False by (intros ?; done).
Qed.

(** X8: [virtcrypto_dev_get] followed by [virtcrypto_dev_put] on the
    same device leaves every device as it was.  On a device that held no
    reference the pair calls [try_module_get] and then [module_put], and
    [module_put] is called also when [try_module_get] had failed; on a
    device that held references it makes no external call. *)
Theorem get_then_put (ok : bool) (p : ptr) (st : state) :
  int_range (ref_count (mem st p)) →
  let st' := virtcrypto_dev_put p (virtcrypto_dev_get ok p st).2 in
  (∀ q, mem st' q = mem st q)
  ∧ virtio_crypto_table st' = virtio_crypto_table st
  ∧ num_devices st' = num_devices st
  ∧ (ref_count (mem st p) = 0 →
     calls st' = module_put_ev (owner (mem st p))
                   :: try_module_get_ev (owner (mem st p)) ok :: calls st)
  ∧ (ref_count (mem st p) ≠ 0 → calls st' = calls st).
Proof.
  intros Hv st'.
  destruct (dev_get_step ok p st Hv) as (Hc & Ho & H0 & Hn).
  assert (Hv1 : int_range (ref_count (mem (virtcrypto_dev_get ok p st).2 p))).
  { rewrite Hc. apply wrap_int_range. }
  destruct (dev_put_step p _ Hv1) as (Hc' & Ho' & H1 & Hn'). fold st' in Hc', Ho', H1, Hn'.
  assert (Hback : ref_count (mem st' p) = ref_count (mem st p)).
  { rewrite Hc', Hc. unfold Z.sub. rewrite wrap_int_add_l.
    replace (ref_count (mem st p) + 1 + - (1)) with (ref_count (mem st p)) by lia.
    by apply wrap_int_small. }
  assert (Hmem : ∀ q, mem st' q = mem st q
                      ∨ (q = p ∧ mem st' q = set_ref_count (ref_count (mem st' p)) (mem st p))).
  { intros q. subst st'.
    unfold virtcrypto_dev_put, virtcrypto_dev_get, atomic_sub_return,
      atomic_add_return. cbn zeta.
    destruct (decide (p = q)) as [<-|Hne].
    - right. split; [done|].
      repeat (case_decide || destruct ok); cbn; rewrite !fn_lookup_alter; done.
    - left.
      repeat (case_decide || destruct ok); cbn;
        rewrite !fn_lookup_alter_ne by done; done. }
  assert (Hframe : ∀ s, virtio_crypto_table (virtcrypto_dev_put p s) = virtio_crypto_table s
                        ∧ num_devices (virtcrypto_dev_put p s) = num_devices s).
  { intros s. unfold virtcrypto_dev_put, atomic_sub_return. cbn zeta.
    by case_decide. }
  destruct (dev_get_other_fields ok p p st) as (_ & _ & _ & Ht & Hnum).
  destruct (Hframe (virtcrypto_dev_get ok p st).2) as [Ht' Hnum'].
  split_and!.
  - intros q. destruct (Hmem q) as [?|[-> Hq]]; [done|].
    rewrite Hq, Hback. by destruct (mem st p).
  - subst st'. by rewrite Ht', Ht.
  - subst st'. by rewrite Hnum', Hnum.
  - intros Hz. destruct (H0 Hz) as (Hone & Hcalls & _).
    destruct (H1 Hone) as [_ ->]. by rewrite Hcalls, Ho.
  - intros Hz. destruct (Hn Hz) as (Hone & Hcalls & _).
    destruct (Hn' Hone) as [_ ->]. done.
Qed.

(** A sequence where every [Put] answers an earlier [Get], short enough
    for [int]: the count never wraps and never goes below 0, and the
    calls of [try_module_get] and [module_put] differ by whether the
    device is held before and after. *)
Lemma ref_run_balanced (p : ptr) (m : module_ptr) (ops : list ref_op)
    (d : nat) (st : state) :
  owner (mem st p) = m →
  ref_count (mem st p) = Z.of_nat d →
  Z.of_nat d + Z.of_nat (gets ops) < 2 ^ 31 →
  never_below d ops = true →
  let r := ref_run p ops st in
  Forall (λ v, 0 <= v < 2 ^ 31) (ref_counts p ops st)
  ∧ ref_count (mem r.2 p)
      = Z.of_nat d + Z.of_nat (gets ops) - Z.of_nat (puts ops)
  ∧ (count_calls (is_try_get m) r.2 + held (Z.of_nat d)
       + count_calls (is_module_put m) st
     = count_calls (is_module_put m) r.2 + held (ref_count (mem r.2 p))
       + count_calls (is_try_get m) st)%nat
  ∧ (Forall (λ x, x = 0) r.1 →
     (count_calls (is_pinned m) r.2 + held (Z.of_nat d)
        + count_calls (is_module_put m) st
      = count_calls (is_module_put m) r.2 + held (ref_count (mem r.2 p))
        + count_calls (is_pinned m) st)%nat).
Proof.
  revert d st. induction ops as [|o ops IH]; intros d st Hm Hd Hlt Hnb r; subst r.
  { cbn. rewrite Hd. split_and!; [|lia|lia|intros; lia].
    repeat constructor; lia. }
  assert (Hv : int_range (ref_count (mem st p))).
  { rewrite Hd. unfold int_range. lia. }
  destruct (ref_step_counts p m o st Hm Hv) as (Ho & Hv1 & Hc & Ht & Hp & Hk).
  rewrite gets_cons in Hlt. rewrite ref_run_cons, gets_cons, puts_cons.
  cbn [fst snd]. cbn [ref_counts]. fold (ref_counts p ops (ref_step p o st).2).
  destruct o as [ok|]; cbn [is_get is_put never_below] in *.
  - rewrite Hd, wrap_int_small in Hc by (unfold int_range; lia).
    destruct (IH (S d) (ref_step p (Get ok) st).2 Ho) as (IHf & IHc & IHt & IHk);
      [lia | lia | done |].
    rewrite Hd in Ht, Hp, Hk.
    split_and!.
    + constructor; [lia | done].
    + rewrite IHc. lia.
    + rewrite Ht, Hp in IHt. unfold held in *.
      repeat case_decide; lia.
    + intros Hall. apply list.Forall_cons_1 in Hall as [Hr Hrs].
      specialize (IHk Hrs). specialize (Hk Hr).
      rewrite Hk, Hp in IHk. unfold held in *.
      repeat case_decide; lia.
  - destruct d as [|d']; [done|].
    rewrite Hd, wrap_int_small in Hc by (unfold int_range; lia).
    destruct (IH d' (ref_step p Put st).2 Ho) as (IHf & IHc & IHt & IHk);
      [lia | lia | done |].
    rewrite Hd in Ht, Hp, Hk.
    split_and!.
    + constructor; [lia | done].
    + rewrite IHc. lia.
    + rewrite Ht, Hp in IHt. unfold held in *.
      repeat case_decide; lia.
    + intros Hall. apply list.Forall_cons_1 in Hall as [Hr Hrs].
      specialize (IHk Hrs). specialize (Hk Hr).
      rewrite Hk, Hp in IHk. unfold held in *.
      repeat case_decide; lia.
Qed.

(** X9: when every [virtcrypto_dev_put] of a sequence answers an earlier
    [virtcrypto_dev_get], or one of the [d] references held at the
    start, and the references fit an [int], the count is at every moment
    the number of references held: it never goes below 0 and never
    wraps, and at the end it is [d] plus the calls of
    [virtcrypto_dev_get] less those of [virtcrypto_dev_put]. *)
Theorem balanced_counts (p : ptr) (ops : list ref_op) (d : nat) (st : state) :
  ref_count (mem st p) = Z.of_nat d →
  Z.of_nat d + Z.of_nat (gets ops) < 2 ^ 31 →
  never_below d ops = true →
  Forall (λ v, 0 <= v < 2 ^ 31) (ref_counts p ops st)
  ∧ ref_count (mem (ref_run p ops st).2 p)
      = Z.of_nat d + Z.of_nat (gets ops) - Z.of_nat (puts ops).
Proof.
  intros Hd Hlt Hnb.
  destruct (ref_run_balanced p _ ops d st eq_refl Hd Hlt Hnb) as (? & ? & _).
  done.
Qed.

(** X10: over such a sequence the module reference follows the use of
    the device: the calls of [try_module_get] it makes, plus one if the
    device was held before, are the calls of [module_put] it makes, plus
    one if the device is held after; and when every
    [virtcrypto_dev_get] returned 0 the same holds of the calls of
    [try_module_get] that succeeded. *)
Theorem module_follows_use (p : ptr) (ops : list ref_op) (d : nat)
    (st : state) :
  ref_count (mem st p) = Z.of_nat d →
  Z.of_nat d + Z.of_nat (gets ops) < 2 ^ 31 →
  never_below d ops = true →
  let r := ref_run p ops st in
  let m := owner (mem st p) in
  (count_calls (is_try_get m) r.2 + held (Z.of_nat d)
     + count_calls (is_module_put m) st
   = count_calls (is_module_put m) r.2 + held (ref_count (mem r.2 p))
     + count_calls (is_try_get m) st)%nat
  ∧ (Forall (λ x, x = 0) r.1 →
     (count_calls (is_pinned m) r.2 + held (Z.of_nat d)
        + count_calls (is_module_put m) st
      = count_calls (is_module_put m) r.2 + held (ref_count (mem r.2 p))
        + count_calls (is_pinned m) st)%nat).
Proof.
  intros Hd Hlt Hnb r m.
  destruct (ref_run_balanced p m ops d st eq_refl Hd Hlt Hnb) as (_ & _ & ? & ?).
  done.
Qed.

(** ** More on status and selection *)

(** X11: [virtcrypto_get_dev_node] takes one reference on the device it
    returns, calling [try_module_get] if and only if that device held
    none, and writes to no other device; the table and [num_devices] are
    as before; and when it returns no device it changes nothing. *)
Theorem get_dev_node_takes_reference (ok : bool) (node : Z) (st : state) :
  let r := virtcrypto_get_dev_node ok node st in
  (r.1 = None → r.2 = st)
  ∧ ∀ p, r.1 = Some p →
      int_range (ref_count (mem st p)) →
      ref_count (mem r.2 p) = wrap_int (ref_count (mem st p) + 1)
      ∧ (∀ q, q ≠ p → mem r.2 q = mem st q)
      ∧ virtio_crypto_table r.2 = virtio_crypto_table st
      ∧ num_devices r.2 = num_devices st
      ∧ (ref_count (mem st p) = 0 →
         calls r.2 = try_module_get_ev (owner (mem st p)) ok :: calls st)
      ∧ (ref_count (mem st p) ≠ 0 → calls r.2 = calls st).
Proof.
  intros r. subst r. unfold virtcrypto_get_dev_node.
  destruct (get_dev_node_found node st) as [p'|]; cbn [fst snd]; [|done].
  split; [done|]. intros p [= ->] Hv.
  destruct (dev_get_step ok p st Hv) as (Hc & _ & H0 & Hn).
  destruct (dev_get_other_fields ok p p st) as (_ & _ & _ & Ht & Hnum).
  split_and!; [done | | done | done | |].
  - intros q Hq. unfold virtcrypto_dev_get, atomic_add_return. cbn zeta.
    repeat (case_decide || destruct ok); cbn;
      rewrite !fn_lookup_alter_ne by done; done.
  - intros Hz. by destruct (H0 Hz) as (_ & ? & _).
  - intros Hz. by destruct (Hn Hz) as (_ & ? & _).
Qed.

(** X12: a device that has been stopped is not returned by
    [virtcrypto_get_dev_node], whatever the node asked for, until it is
    started again. *)
Theorem stopped_not_selected (ok : bool) (node : Z) (p : ptr) (st : state) :
  (virtcrypto_get_dev_node ok node (virtcrypto_dev_stop p st).2).1 ≠ Some p.
Proof.
  rewrite get_dev_node_fst. intros Hsel.
  apply get_dev_node_found_Some in Hsel as [_ Hs].
  by apply (dev_stop_not_started p st).
Qed.

(** X13: once a device of the table has been started with success,
    [virtcrypto_get_dev_node] returns a device for every node asked for;
    if it is the only device of the table, it is the one returned. *)
Theorem started_is_selected (ok : bool) (node : Z) (p : ptr) (st : state) :
  p ∈ virtio_crypto_table st →
  let st' := (virtcrypto_dev_start 0 p st).2 in
  (virtcrypto_get_dev_node ok node st').1 ≠ None
  ∧ (virtio_crypto_table st = [p] →
     (virtcrypto_get_dev_node ok node st').1 = Some p).
Proof.
  intros Hp st'.
  assert (Hs : started st' p).
  { subst st'. unfold started, virtcrypto_dev_start.
    rewrite decide_False by (intros ?; done). cbn.
    rewrite fn_lookup_alter. cbn.
    rewrite Z.land_lor_distr_l, Z.land_diag.
    intros H0. apply Z.lor_eq_0_iff in H0 as [_ H0]. lia. }
  assert (Ht : virtio_crypto_table st' = virtio_crypto_table st).
  { subst st'. unfold virtcrypto_dev_start.
    by rewrite decide_False by (intros ?; done). }
  assert (Hne : (virtcrypto_get_dev_node ok node st').1 ≠ None).
  { rewrite get_dev_node_fst. intros Hnone.
    apply (proj1 (get_dev_node_found_None node st') Hnone p); [|done].
    by rewrite Ht. }
  split; [done|]. intros Hone.
  rewrite get_dev_node_fst in *.
  destruct (get_dev_node_found node st') as [q|] eqn:E; [|done].
  apply get_dev_node_found_Some in E as [Hq _].
  rewrite Ht, Hone in Hq. apply list_elem_of_singleton in Hq. by subst q.
Qed.

(** X14: [virtcrypto_dev_start] and [virtcrypto_dev_stop] change the
    started flag and no other bit of [status].  Stopping a device that
    was started with success gives the status that stopping alone
    gives, and gives back the status as it was if the device was not
    started before; starting twice gives the status of starting once. *)
Theorem start_stop_status (p : ptr) (st : state) :
  let s := status (mem st p) in
  let s1 := status (mem (virtcrypto_dev_start 0 p st).2 p) in
  let s0 := status (mem (virtcrypto_dev_stop p st).2 p) in
  (∀ n, 0 <= n → Z.testbit VIRTIO_CRYPTO_S_STARTED n = false →
     Z.testbit s1 n = Z.testbit s n ∧ Z.testbit s0 n = Z.testbit s n)
  ∧ status (mem (virtcrypto_dev_stop p (virtcrypto_dev_start 0 p st).2).2 p) = s0
  ∧ (¬ started st p →
     status (mem (virtcrypto_dev_stop p (virtcrypto_dev_start 0 p st).2).2 p) = s)
  ∧ status (mem (virtcrypto_dev_start 0 p (virtcrypto_dev_start 0 p st).2).2 p)
    = s1.
Proof.
  intros s s1 s0. subst s1 s0. unfold started, virtcrypto_dev_start, virtcrypto_dev_stop.
  rewrite !decide_False by (intros ?; done). cbn.
  rewrite !fn_lookup_alter. cbn. fold s.
  split_and!.
  - intros n Hn Hbit.
    rewrite Z.lor_spec, Z.land_spec, Z.lnot_spec, Hbit by done.
    by destruct (Z.testbit s n).
  - apply Z.bits_inj'. intros n Hn.
    rewrite !Z.land_spec, Z.lor_spec, Z.lnot_spec by done.
    by destruct (Z.testbit s n), (Z.testbit VIRTIO_CRYPTO_S_STARTED n).
  - intros Hns. apply dec_stable in Hns.
    apply Z.bits_inj'. intros n Hn.
    assert (Hb : Z.testbit (Z.land s VIRTIO_CRYPTO_S_STARTED) n = false)
      by (rewrite Hns; apply Z.bits_0).
    rewrite Z.land_spec in Hb.
    rewrite !Z.land_spec, Z.lor_spec, Z.lnot_spec by done.
    by destruct (Z.testbit s n), (Z.testbit VIRTIO_CRYPTO_S_STARTED n).
  - apply Z.bits_inj'. intros n Hn.
    rewrite !Z.lor_spec.
    by destruct (Z.testbit s n), (Z.testbit VIRTIO_CRYPTO_S_STARTED n).
Qed.

Lemma get_dev_node_scan_skips (node : Z) (st : state) (l : list ptr) :
  (∀ q, q ∈ l → candidate node st q → ref_count (mem st q) = -1) →
  get_dev_node_scan node st l None (ulong (Z.lnot 0)) = None.
Proof.
  induction l as [|x l IH]; intros Hall; [done|].
  cbn [get_dev_node_scan].
  assert (Hl : ∀ q, q ∈ l → candidate node st q → ref_count (mem st q) = -1).
  { intros q Hq. apply Hall. by apply list_elem_of_further. }
  destruct (decide (_ ∧ _)) as [Ht|Ht]; [|by apply IH].
  apply scan_test_candidate in Ht.
  unfold atomic_read. rewrite (Hall x (list_elem_of_here _ _) Ht).
  change (Z.lnot 0) with (-1) in *.
  rewrite decide_False by lia. by apply IH.
Qed.

(** X15: the first loop compares the counts as [unsigned long], and a
    count of -1, left by one [virtcrypto_dev_put] too many, is [~0]
    there, which the loop never takes.  When every started device on the
    node asked for or on none has count -1, the device returned is the
    first started device of the table, on whatever node. *)
Theorem minus_one_not_preferred (ok : bool) (node : Z) (st : state) :
  (∀ q, q ∈ virtio_crypto_table st → candidate node st q →
     ref_count (mem st q) = -1) →
  (∃ q, q ∈ virtio_crypto_table st ∧ started st q) →
  ∃ p, (virtcrypto_get_dev_node ok node st).1 = Some p
       ∧ first_started st (virtio_crypto_table st) p.
Proof.
  intros Hall (q & Hq & Hs).
  rewrite get_dev_node_fst. unfold get_dev_node_found, virtcrypto_devmgr_get_head.
  rewrite get_dev_node_scan_skips by done.
  destruct (get_dev_node_any st (virtio_crypto_table st)) as [p|] eqn:Ea.
  - exists p. split; [done|]. by apply get_dev_node_any_first.
  - exfalso. by apply (proj1 (get_dev_node_any_None st _) Ea q).
Qed.

End Manager.

(** * The operations on concrete configurations *)

Example add_three :
  (add_devs [1; 2; 3]%positive st0).1 = [0; 0; 0]
  ∧ virtio_crypto_table (add_devs [1; 2; 3]%positive st0).2 = [1; 2; 3]%positive.
Proof. vm_compute. done. Qed.

Example select_scenario :
  let st1 := (add_devs [1; 2; 3]%positive st_nodes).2 in
  let st2 := foldl (λ s p, (virtcrypto_dev_start 2 0 p s).2) st1 [1; 2; 3]%positive in
  let r1 := virtcrypto_get_dev_node 2 64 true 0 st2 in
  let r2 := virtcrypto_get_dev_node 2 64 true 0 r1.2 in
  let r3 := virtcrypto_get_dev_node 2 64 true 0 r2.2 in
  r1.1 = Some 1%positive ∧ r2.1 = Some 3%positive ∧ r3.1 = Some 1%positive
  ∧ ref_count (mem r3.2 1%positive) = 2.
Proof. vm_compute. done. Qed.

(** A registration refused: device 1 is registered twice. *)
Lemma add_dev_error_leaves_state_witness :
  let st := (add_devs [1]%positive st0).2 in
  (virtcrypto_devmgr_add_dev 1%positive st).1 ≠ 0
  ∧ (virtcrypto_devmgr_add_dev 1%positive st).2 = st.
Proof.
  intros st.
  assert (H : (virtcrypto_devmgr_add_dev 1%positive st).1 ≠ 0) by (vm_compute; discriminate).
  split; [exact H|].
  exact (proj1 (add_dev_error_leaves_state 1%positive st H)).
Defined.

(** With 32 devices in the table, registering device 1 again returns
    [-EFAULT], not [-EEXIST]: the table is full, and that is tested
    first. *)
Lemma add_dev_present_full_table :
  let st := (add_devs handles32 st0).2 in
  table_has 1%positive (virtio_crypto_table st) = true
  ∧ length (virtio_crypto_table st) = 32%nat
  ∧ num_devices st = VIRTIO_CRYPTO_MAX_DEVICES
  ∧ (virtcrypto_devmgr_add_dev 1%positive st).1 = - EFAULT
  ∧ (virtcrypto_devmgr_add_dev 1%positive st).1 ≠ - EEXIST.
Proof. vm_compute. repeat split; discriminate. Qed.

Lemma add_dev_present_rejected_witness :
  let st := (add_devs [1; 2]%positive st0).2 in
  virtcrypto_devmgr_add_dev 2%positive st = (- EEXIST, st)
  ∧ length (filter (λ q, q = 2%positive)
              (virtio_crypto_table (virtcrypto_devmgr_add_dev 2%positive st).2)) = 1%nat.
Proof.
  intros st.
  assert (Hnd : NoDup (virtio_crypto_table st)).
  { refine (bool_decide_unpack _ _). vm_compute. exact I. }
  assert (Hin : 2%positive ∈ virtio_crypto_table st).
  { refine (bool_decide_unpack _ _). vm_compute. exact I. }
  destruct (add_dev_present_rejected 2%positive st Hnd Hin) as (He & _ & _ & Hc).
  split; [|exact Hc].
  apply He. vm_compute. discriminate.
Defined.

(** Devices 1 and 2 are registered and get ids 0 and 1.  When device 1
    is removed and device 3 registered, device 3 gets id 1, the id of
    device 2, which is still in the table.  When instead device 2 is
    removed and device 3 registered, device 3 gets id 1, the id device 2
    had, while device 1 is still in the table. *)
Lemma add_dev_id_of_present_device :
  let ops := [Add 1; Add 2; Rm 1]%positive in
  let st := reg_run ops st0 in
  let ops' := [Add 1; Add 2; Rm 2]%positive in
  let st' := reg_run ops' st0 in
  (rm_present ops st0 = true
   ∧ virtio_crypto_table st = [2]%positive
   ∧ dev_id (mem st 2%positive) = 1
   ∧ (virtcrypto_devmgr_add_dev 3%positive st).1 = 0
   ∧ virtio_crypto_table (virtcrypto_devmgr_add_dev 3%positive st).2
     = [2; 3]%positive
   ∧ dev_id (mem (virtcrypto_devmgr_add_dev 3%positive st).2 3%positive)
     = dev_id (mem (virtcrypto_devmgr_add_dev 3%positive st).2 2%positive))
  ∧ (rm_present ops' st0 = true
     ∧ virtio_crypto_table st' = [1]%positive
     ∧ dev_id (mem st' 2%positive) = 1
     ∧ (virtcrypto_devmgr_add_dev 3%positive st').1 = 0
     ∧ dev_id (mem (virtcrypto_devmgr_add_dev 3%positive st').2 3%positive)
       = dev_id (mem st' 2%positive)).
Proof. vm_compute. repeat split. Qed.

Lemma add_dev_id_fresh_rm_last_witness :
  let ops := [Add 1; Add 2; Rm 2; Add 3]%positive in
  let st' := reg_run ops st0 in
  virtio_crypto_table st' = [1; 3]%positive
  ∧ (virtcrypto_devmgr_add_dev 4%positive st').1 = 0
  ∧ dev_id (mem (virtcrypto_devmgr_add_dev 4%positive st').2 4%positive) = 2
  ∧ ∀ q : ptr, q ∈ virtio_crypto_table st' →
      dev_id (mem (virtcrypto_devmgr_add_dev 4%positive st').2 q)
        ≠ dev_id (mem (virtcrypto_devmgr_add_dev 4%positive st').2 4%positive).
Proof.
  intros ops st'.
  assert (He : empty_registry st0) by (split; reflexivity).
  assert (Ho : rm_last_only ops st0 = true) by (vm_compute; reflexivity).
  assert (Hr : (virtcrypto_devmgr_add_dev 4%positive st').1 = 0)
    by (vm_compute; reflexivity).
  destruct (add_dev_id_fresh_rm_last ops st0 He Ho) as [_ Hadd].
  destruct (Hadd 4%positive Hr) as [Hid Hne].
  split; [vm_compute; reflexivity|]. split; [exact Hr|].
  split; [exact Hid | exact Hne].
Defined.

Lemma add_devs_up_to_capacity_witness :
  let st' := (add_devs handles32 st0).2 in
  (add_devs handles32 st0).1 = replicate 32 0
  ∧ virtio_crypto_table st' = handles32
  ∧ (∀ (i : nat) (p : ptr),
       handles32 !! i = Some p → dev_id (mem st' p) = Z.of_nat i)
  ∧ ∀ q : ptr, virtcrypto_devmgr_add_dev q st' = (- EFAULT, st').
Proof.
  intros st'.
  assert (He : empty_registry st0) by (split; reflexivity).
  assert (Hnd : NoDup handles32).
  { refine (bool_decide_unpack _ _). vm_compute. exact I. }
  assert (Hlen : Z.of_nat (length handles32) <= VIRTIO_CRYPTO_MAX_DEVICES).
  { vm_compute. discriminate. }
  destruct (add_devs_up_to_capacity handles32 st0 He Hnd Hlen)
    as (Hr & Ht & Hid & _ & Hfull).
  split; [exact Hr|]. split; [exact Ht|]. split; [exact Hid|].
  apply Hfull. vm_compute. reflexivity.
Defined.

Lemma dev_get_pin_failed_keeps_count_witness :
  (virtcrypto_dev_get false 1%positive st0).1 = - EFAULT
  ∧ ref_count (mem (virtcrypto_dev_get false 1%positive st0).2 1%positive) = 1.
Proof.
  assert (Hz : ref_count (mem st0 1%positive) = 0) by reflexivity.
  destruct (dev_get_pin_failed_keeps_count 1%positive st0 Hz) as (Hr & Hc & _).
  split; [exact Hr | exact Hc].
Defined.

Lemma get_put_paired_witness :
  let ops := [Get true; Get true; Put; Get true; Put; Put] in
  ref_count (mem (ref_run 1%positive ops st0).2 1%positive) = 0
  ∧ count_calls (is_try_get 1%positive) (ref_run 1%positive ops st0).2 = 1%nat
  ∧ count_calls (is_module_put 1%positive) (ref_run 1%positive ops st0).2 = 1%nat
  ∧ count_calls (is_pinned 1%positive) (ref_run 1%positive ops st0).2 = 1%nat.
Proof.
  intros ops.
  assert (Hv : int_range (ref_count (mem st0 1%positive))).
  { unfold int_range. simpl. lia. }
  assert (Hg : gets ops = 3%nat) by reflexivity.
  assert (Hp : puts ops = 3%nat) by reflexivity.
  destruct (get_put_paired 1%positive ops 3 st0 Hv Hg Hp) as (Hc & Ht & Hm & Hk).
  split; [exact Hc|]. split; [exact Ht|]. split; [exact Hm|].
  apply Hk. vm_compute. repeat constructor.
Defined.

Lemma dev_start_status_witness :
  (virtcrypto_dev_start 2 (-5) 1%positive st0).1 = - EFAULT
  ∧ mem (virtcrypto_dev_start 2 (-5) 1%positive st0).2 = mem st0
  ∧ (virtcrypto_dev_start 2 0 1%positive st0).1 = 0
  ∧ started 2 (virtcrypto_dev_start 2 0 1%positive st0).2 1%positive.
Proof.
  assert (Hs : 0 < 2 < 2 ^ 32) by (simpl; lia).
  destruct (dev_start_status 2 Hs (-5) 1%positive st0) as [Hfail _].
  destruct (dev_start_status 2 Hs 0 1%positive st0) as [_ Hok].
  destruct Hfail as (Hr & Hm & _); [discriminate|].
  destruct Hok as (Hr0 & _ & Hst & _); [reflexivity|].
  split; [exact Hr|]. split; [exact Hm|]. split; [exact Hr0 | exact Hst].
Defined.

Lemma get_dev_node_none_iff_witness :
  (virtcrypto_get_dev_node 2 64 true 0 st_started).1 = Some 3%positive
  ∧ started 2 st_started 3%positive
  ∧ ((virtcrypto_get_dev_node 2 64 true 0 st0).1 = None ↔
     ∀ q, q ∈ virtio_crypto_table st0 → ¬ started 2 st0 q).
Proof.
  assert (Hs : 0 < 2 < 2 ^ 32) by (simpl; lia).
  assert (Hsel : (virtcrypto_get_dev_node 2 64 true 0 st_started).1
                 = Some 3%positive) by (vm_compute; reflexivity).
  destruct (get_dev_node_none_iff 2 64 Hs true 0 st_started) as [_ Hsome].
  destruct (Hsome 3%positive Hsel) as (_ & Hst & _).
  split; [exact Hsel|]. split; [exact Hst|].
  exact (proj1 (get_dev_node_none_iff 2 64 Hs true 0 st0)).
Defined.

Lemma get_dev_node_ignores_pin_failure_witness :
  (virtcrypto_dev_get false 3%positive st_started).1 = - EFAULT
  ∧ virtcrypto_get_dev_node 2 64 false 0 st_started
      = (Some 3%positive, (virtcrypto_dev_get false 3%positive st_started).2).
Proof.
  assert (Hf : get_dev_node_found 2 64 0 st_started = Some 3%positive)
    by (vm_compute; reflexivity).
  destruct (get_dev_node_ignores_pin_failure 2 64 0 st_started 3%positive Hf)
    as [_ Hfail].
  apply Hfail. reflexivity.
Defined.

Lemma get_dev_node_least_loaded_witness :
  ∃ p, (virtcrypto_get_dev_node 2 64 true 0 st_started).1 = Some p
       ∧ least_loaded_first 2 0 st_started (virtio_crypto_table st_started) p.
Proof.
  assert (Hs : 0 < 2 < 2 ^ 32) by (simpl; lia).
  assert (Hb : 32 <= 64) by lia.
  assert (Hc : counts_in_range st_started (virtio_crypto_table st_started)).
  { intros q Hq. simpl in Hq.
    repeat (apply elem_of_cons in Hq as [->|Hq];
            [vm_compute; split; [discriminate | reflexivity]|]).
    by apply elem_of_nil in Hq. }
  destruct (get_dev_node_least_loaded 2 64 Hs Hb true 0 st_started Hc)
    as [Hcand _].
  apply Hcand. exists 1%positive. split.
  - apply list_elem_of_here.
  - split; [vm_compute; discriminate | left; reflexivity].
Defined.

(** The fallback: asked for node 5, with device 2 (node 1) the only one
    in the table, the second loop returns device 2. *)
Example select_fallback :
  let st := State (mem st_started) [2]%positive 1 [] in
  (virtcrypto_get_dev_node 2 64 true 5 st).1 = Some 2%positive.
Proof. vm_compute. done. Qed.

Lemma reg_run_counts_devices_witness :
  let st' := reg_run [Add 1; Add 2; Add 3; Rm 2; Add 2; Rm 1]%positive st0 in
  virtio_crypto_table st' = [3; 2]%positive
  ∧ num_devices st' = 2.
Proof.
  intros st'.
  assert (He : empty_registry st0) by (split; reflexivity).
  destruct (reg_run_counts_devices
              [Add 1; Add 2; Add 3; Rm 2; Add 2; Rm 1]%positive st0 He)
    as (_ & Hn & _); [vm_compute; reflexivity|].
  split; [vm_compute; reflexivity | exact Hn].
Defined.

Lemma rm_dev_removes_witness :
  let st := (add_devs [1; 2; 3]%positive st0).2 in
  virtio_crypto_table (virtcrypto_devmgr_rm_dev 2%positive st) = [1; 3]%positive
  ∧ num_devices (virtcrypto_devmgr_rm_dev 2%positive st) = 2.
Proof.
  intros st.
  assert (Hnd : NoDup (virtio_crypto_table st)).
  { refine (bool_decide_unpack _ _). vm_compute. exact I. }
  assert (Hin : 2%positive ∈ virtio_crypto_table st).
  { refine (bool_decide_unpack _ _). vm_compute. exact I. }
  destruct (rm_dev_removes 2%positive st Hnd Hin) as (Ht & _ & _ & Hn & _).
  split; [exact Ht | exact Hn].
Defined.

Lemma add_then_rm_witness :
  let st := (add_devs [1; 2]%positive st0).2 in
  let st' := virtcrypto_devmgr_rm_dev 3%positive
               (virtcrypto_devmgr_add_dev 3%positive st).2 in
  virtio_crypto_table st' = virtio_crypto_table st
  ∧ num_devices st' = num_devices st.
Proof.
  intros st st'.
  assert (Hn : 0 <= num_devices st < 2 ^ 32) by (vm_compute; split; discriminate || reflexivity).
  assert (Hr : (virtcrypto_devmgr_add_dev 3%positive st).1 = 0)
    by (vm_compute; reflexivity).
  destruct (add_then_rm 3%positive st Hn Hr) as (Ht & Hnum & _).
  split; [exact Ht | exact Hnum].
Defined.

Lemma rm_makes_room_witness :
  let st := (add_devs handles32 st0).2 in
  (virtcrypto_devmgr_add_dev 40%positive st).1 = - EFAULT
  ∧ (virtcrypto_devmgr_add_dev 40%positive
       (virtcrypto_devmgr_rm_dev 7%positive st)).1 = 0.
Proof.
  intros st.
  assert (Hc : table_counted st).
  { split; [|split].
    - refine (bool_decide_unpack _ _). vm_compute. exact I.
    - vm_compute. reflexivity.
    - vm_compute. discriminate. }
  assert (Hfull : num_devices st = VIRTIO_CRYPTO_MAX_DEVICES)
    by (vm_compute; reflexivity).
  assert (Hp : 7%positive ∈ virtio_crypto_table st).
  { refine (bool_decide_unpack _ _). vm_compute. exact I. }
  assert (Hq : 40%positive ∉ virtio_crypto_table st ∨ 40%positive = 7%positive).
  { left. refine (bool_decide_unpack _ _). vm_compute. exact I. }
  exact (rm_makes_room 7%positive 40%positive st Hc Hfull Hp Hq).
Defined.

Lemma in_use_after_add_witness :
  virtcrypto_dev_in_use 1%positive (State (mem st_minus) [] 0 []) = 1
  ∧ virtcrypto_dev_in_use 1%positive
      (virtcrypto_devmgr_add_dev 1%positive (State (mem st_minus) [] 0 [])).2 = 0.
Proof.
  assert (Hr : (virtcrypto_devmgr_add_dev 1%positive
                  (State (mem st_minus) [] 0 [])).1 = 0)
    by (vm_compute; reflexivity).
  destruct (in_use_after_add 1%positive (State (mem st_minus) [] 0 []) Hr)
    as [H0 _].
  split; [vm_compute; reflexivity | exact H0].
Defined.

Lemma get_then_put_witness :
  let st' := virtcrypto_dev_put 1%positive
               (virtcrypto_dev_get false 1%positive st0).2 in
  (virtcrypto_dev_get false 1%positive st0).1 = - EFAULT
  ∧ ref_count (mem st' 1%positive) = 0
  ∧ calls st' = [module_put_ev 1%positive; try_module_get_ev 1%positive false].
Proof.
  intros st'.
  assert (Hv : int_range (ref_count (mem st0 1%positive))).
  { unfold int_range. simpl. lia. }
  destruct (get_then_put false 1%positive st0 Hv) as (Hm & _ & _ & Hc & _).
  split; [vm_compute; reflexivity|].
  split; [exact (f_equal ref_count (Hm 1%positive))|].
  apply Hc. reflexivity.
Defined.

Lemma balanced_counts_witness :
  let ops := [Get true; Put; Get true; Get true; Put] in
  ref_counts 1%positive ops st0 = [0; 1; 0; 1; 2; 1]
  ∧ ref_count (mem (ref_run 1%positive ops st0).2 1%positive) = 1.
Proof.
  intros ops.
  assert (Hd : ref_count (mem st0 1%positive) = Z.of_nat 0) by reflexivity.
  assert (Hlt : Z.of_nat 0 + Z.of_nat (gets ops) < 2 ^ 31) by (vm_compute; reflexivity).
  assert (Hnb : never_below 0 ops = true) by reflexivity.
  destruct (balanced_counts 1%positive ops 0 st0 Hd Hlt Hnb) as [_ Hc].
  split; [vm_compute; reflexivity | exact Hc].
Defined.

Lemma module_follows_use_witness :
  let ops := [Get true; Put; Get true; Get true; Put] in
  count_calls (is_try_get 1%positive) (ref_run 1%positive ops st0).2 = 2%nat
  ∧ count_calls (is_module_put 1%positive) (ref_run 1%positive ops st0).2 = 1%nat
  ∧ (count_calls (is_try_get 1%positive) (ref_run 1%positive ops st0).2 + 0 + 0
     = count_calls (is_module_put 1%positive) (ref_run 1%positive ops st0).2
       + 1 + 0)%nat.
Proof.
  intros ops.
  assert (Hd : ref_count (mem st0 1%positive) = Z.of_nat 0) by reflexivity.
  assert (Hlt : Z.of_nat 0 + Z.of_nat (gets ops) < 2 ^ 31) by (vm_compute; reflexivity).
  assert (Hnb : never_below 0 ops = true) by reflexivity.
  destruct (module_follows_use 1%positive ops 0 st0 Hd Hlt Hnb) as [Ht _].
  split; [vm_compute; reflexivity|]. split; [vm_compute; reflexivity | exact Ht].
Defined.

Lemma stopped_not_selected_witness :
  (virtcrypto_get_dev_node 2 64 true 0 st_started).1 = Some 3%positive
  ∧ (virtcrypto_get_dev_node 2 64 true 0
       (virtcrypto_dev_stop 2 3%positive st_started).2).1 ≠ Some 3%positive.
Proof.
  assert (Hs : 0 < 2 < 2 ^ 32) by (simpl; lia).
  split; [vm_compute; reflexivity|].
  exact (stopped_not_selected 2 64 Hs true 0 3%positive st_started).
Defined.

Lemma started_is_selected_witness :
  let st := (add_devs [1]%positive st0).2 in
  (virtcrypto_get_dev_node 2 64 true 0 st).1 = None
  ∧ (virtcrypto_get_dev_node 2 64 true 0
       (virtcrypto_dev_start 2 0 1%positive st).2).1 = Some 1%positive.
Proof.
  intros st.
  assert (Hs : 0 < 2 < 2 ^ 32) by (simpl; lia).
  assert (Hin : 1%positive ∈ virtio_crypto_table st).
  { refine (bool_decide_unpack _ _). vm_compute. exact I. }
  destruct (started_is_selected 2 64 Hs true 0 1%positive st Hin) as [_ Hone].
  split; [vm_compute; reflexivity|].
  apply Hone. vm_compute. reflexivity.
Defined.

Lemma minus_one_not_preferred_witness :
  ∃ p, (virtcrypto_get_dev_node 2 64 true 0 st_minus).1 = Some p
       ∧ first_started 2 st_minus (virtio_crypto_table st_minus) p.
Proof.
  assert (Hs : 0 < 2 < 2 ^ 32) by (simpl; lia).
  apply (minus_one_not_preferred 2 64 Hs true 0 st_minus).
  - intros q Hq [_ Haff]. simpl in Hq.
    apply elem_of_cons in Hq as [->|Hq].
    + exfalso. destruct Haff as [Hn|Hn]; vm_compute in Hn; discriminate.
    + apply elem_of_cons in Hq as [->|Hq]; [reflexivity|].
      by apply elem_of_nil in Hq.
  - exists 2%positive. split; [apply list_elem_of_here|].
    vm_compute. discriminate.
Defined.

(** Asked for node 0, with device 1 on node 0 at count -1, the device
    returned is device 2, on node 1. *)
Example select_minus_one :
  (virtcrypto_get_dev_node 2 64 true 0 st_minus).1 = Some 2%positive.
Proof. vm_compute. done. Qed.
